(** * prepare-commit-msg-cc-ai: the two hook scripts, embedded and verified

    The repository holds two Python scripts, [prepare-commit-msg.py] and
    [keep-a-changelog.py].  Both gather the staged diff, ask a remote model
    for a text, clean the answer with a handful of [re] substitutions and
    write it to a file.  This development embeds

    - the fragment of Python's [re] module the scripts use (a backtracking
      matcher with Python's priorities),
    - the extraction and clean-up functions,
    - the control flow of both [main] functions over an explicit world
      (git, environment, HTTP endpoint, file system) and an event trace,

    and then states and proves what the specification says about them. *)

From Stdlib Require Import List NArith ZArith Bool Arith Lia String Ascii.
From Stdlib Require Import DecimalString.
Import ListNotations.
Local Open Scope list_scope.

Set Implicit Arguments.
Set Warnings "-register-all".

(** ** Python strings

    A Python [str] is a sequence of Unicode code points.  A code point is a
    natural number; nothing in the scripts depends on the upper bound. *)

Definition char := N.
Definition pystr := list char.

(** Reading an ASCII literal of this file as a [str]. *)
Definition lit (x : string) : pystr :=
  List.map N_of_ascii (list_ascii_of_string x).

Definition NL : char := 10%N.        (* line feed *)
Definition BSL : char := 92%N.       (* backslash *)
Definition DQ : char := 34%N.        (* double quote *)

Definition char_eqb (a b : char) : bool := N.eqb a b.

Fixpoint str_eqb (a b : pystr) : bool :=
  match a, b with
  | [], [] => true
  | x :: a', y :: b' => char_eqb x y && str_eqb a' b'
  | _, _ => false
  end.

(** [str.isspace] on one code point, which is also what the pattern class
    written backslash-s accepts on a [str]: the ASCII white space 9..13,
    the separators 28..31, the blank, and the Unicode white space. *)
Definition is_space (c : char) : bool :=
  ((9 <=? c) && (c <=? 13) || (28 <=? c) && (c <=? 32)
   || (c =? 133) || (c =? 160) || (c =? 5760)
   || (8192 <=? c) && (c <=? 8202)
   || (c =? 8232) || (c =? 8233) || (c =? 8239) || (c =? 8287)
   || (c =? 12288))%N.

(** The class [a-zA-Z]. *)
Definition is_alpha (c : char) : bool :=
  ((97 <=? c) && (c <=? 122) || (65 <=? c) && (c <=? 90))%N.

(** ** The [re] fragment *)

Module Re.

(** Items of a bracketed class. *)
Inductive cset_item :=
| CChar (c : char)
| CRange (lo hi : char)
| CSpace.

(** Matchers of exactly one character. *)
Inductive atom :=
| ALit (c : char)                               (* a literal character *)
| ASet (neg : bool) (items : list cset_item)    (* [...], [^...], \s *)
| ADot.                                         (* any character but line feed *)

(** Patterns.  Repetition is only ever applied to one-character matchers in
    the two scripts, so [Star] and [Plus] take an atom. *)
Inductive regex :=
| Eps
| Atom (a : atom)
| Star (a : atom)               (* greedy a* *)
| Plus (a : atom)               (* greedy a+ *)
| Bol                           (* ^ without MULTILINE *)
| Eol                           (* $ without MULTILINE *)
| Seq (a b : regex)
| Alt (a b : regex)
| Opt (a : regex)               (* greedy a? *)
| Group (n : nat) (a : regex).  (* capturing group number n *)

Definition item_ok (it : cset_item) (c : char) : bool :=
  match it with
  | CChar x => char_eqb c x
  | CRange lo hi => (lo <=? c)%N && (c <=? hi)%N
  | CSpace => is_space c
  end.

Definition atom_ok (a : atom) (c : char) : bool :=
  match a with
  | ALit x => char_eqb c x
  | ASet neg items => xorb neg (existsb (fun it => item_ok it c) items)
  | ADot => negb (char_eqb c NL)
  end.

(** A match: end index, rest of the subject, captured groups (most recent
    first). *)
Definition groups := list (nat * pystr).
Definition mres := (nat * pystr * groups)%type.
Definition cont := nat -> pystr -> groups -> option mres.

(** Greedy repetition of a one-character test: the longest run first, then
    one character less, and so on down to the empty run. *)
Fixpoint greedy (p : char -> bool) (i : nat) (s : pystr)
         (k : nat -> pystr -> option mres) : option mres :=
  match s with
  | x :: s' =>
      if p x then
        match greedy p (S i) s' k with
        | Some m => Some m
        | None => k i s
        end
      else k i s
  | [] => k i s
  end.

(** The backtracking matcher, in continuation-passing style: [exec r i s g k]
    matches [r] at index [i], where [s] is the subject from [i] on, and hands
    the end of the match to [k]; alternatives are tried in Python's order. *)
Fixpoint exec (r : regex) (i : nat) (s : pystr) (g : groups) (k : cont)
  : option mres :=
  match r with
  | Eps => k i s g
  | Atom a =>
      match s with
      | x :: s' => if atom_ok a x then k (S i) s' g else None
      | [] => None
      end
  | Star a => greedy (atom_ok a) i s (fun j t => k j t g)
  | Plus a =>
      match s with
      | x :: s' =>
          if atom_ok a x
          then greedy (atom_ok a) (S i) s' (fun j t => k j t g)
          else None
      | [] => None
      end
  | Bol => if Nat.eqb i 0 then k i s g else None
  | Eol =>
      match s with
      | [] => k i s g
      | [c] => if char_eqb c NL then k i s g else None
      | _ => None
      end
  | Seq a b => exec a i s g (fun j t g' => exec b j t g' k)
  | Alt a b =>
      match exec a i s g k with
      | Some m => Some m
      | None => exec b i s g k
      end
  | Opt a =>
      match exec a i s g k with
      | Some m => Some m
      | None => k i s g
      end
  | Group n a =>
      exec a i s g (fun j t g' => k j t ((n, firstn (j - i) s) :: g'))
  end.

Definition accept : cont := fun j t g => Some (j, t, g).

(** The top-level success test of [re.sub]'s scan: after an empty match the
    next match at the same index must not be empty. *)
Definition accept_adv (adv : bool) (i : nat) : cont :=
  fun j t g => if adv && Nat.eqb j i then None else Some (j, t, g).

(** [re.match]: a match at index 0 only. *)
Definition re_match (r : regex) (s : pystr) : option mres :=
  exec r 0 s [] accept.

(** [re.search]: the leftmost index with a match. *)
Fixpoint search_from (r : regex) (i : nat) (s : pystr) : option mres :=
  match exec r i s [] accept with
  | Some m => Some m
  | None =>
      match s with
      | [] => None
      | _ :: s' => search_from r (S i) s'
      end
  end.

Definition re_search (r : regex) (s : pystr) : option mres :=
  search_from r 0 s.

(** [match.group(n)]. *)
Fixpoint group (n : nat) (g : groups) : option pystr :=
  match g with
  | [] => None
  | (m, x) :: g' => if Nat.eqb m n then Some x else group n g'
  end.

(** [re.sub] with a replacement that holds no group reference: scan from the
    left, replace each match, copy what lies between.  Every round either
    consumes a character or turns [adv] on, so twice the length plus two
    rounds are always enough. *)
Fixpoint sub_loop (fuel : nat) (r : regex) (repl : pystr)
         (i : nat) (s : pystr) (adv : bool) : pystr :=
  match fuel with
  | 0 => s
  | S f =>
      match exec r i s [] (accept_adv adv i) with
      | Some (j, t, _) => repl ++ sub_loop f r repl j t (Nat.eqb j i)
      | None =>
          match s with
          | [] => []
          | x :: s' => x :: sub_loop f r repl (S i) s' false
          end
      end
  end.

Definition re_sub (r : regex) (repl : pystr) (s : pystr) : pystr :=
  sub_loop (2 * List.length s + 2) r repl 0 s false.

(** Building patterns. *)
Definition chr (c : char) : regex := Atom (ALit c).

Fixpoint lits (s : pystr) : regex :=
  match s with
  | [] => Eps
  | [c] => chr c
  | c :: s' => Seq (chr c) (lits s')
  end.

Definition word (x : string) : regex := lits (lit x).

Fixpoint alts (r : regex) (rs : list regex) : regex :=
  match rs with
  | [] => r
  | r' :: rs' => Alt r (alts r' rs')
  end.

End Re.

Import Re.
Infix ">>" := Seq (at level 61, right associativity).

(** ** The patterns of the scripts *)

Definition space_set : atom := ASet false [CSpace].
Definition alpha_set : atom := ASet false [CRange 97 122; CRange 65 90]%N.
Definition not_quote : atom := ASet true [CChar DQ].

(** The fallback pattern: the key content between double quotes, a colon, and
    a quoted run of characters other than the double quote, captured. *)
Definition content_pattern : regex :=
  chr DQ >> word "content" >> chr DQ >> chr 58%N >> chr DQ
    >> Group 1 (Star not_quote) >> chr DQ.

Definition newline_escape : regex := chr BSL >> chr 110%N.     (* \\n *)
Definition return_escape : regex := chr BSL >> chr 114%N.      (* \\r *)
Definition leading_space : regex := Bol >> Plus space_set.     (* ^\s+ *)
Definition trailing_space : regex := Plus space_set >> Eol.    (* \s+$ *)
Definition alpha_escape : regex := chr BSL >> Plus alpha_set.  (* \\[a-zA-Z]+ *)

(** ^(feat|fix|docs|style|refactor|perf|test|build|ci|chore|revert)(\(.+\))?: .+$ *)
Definition conventional_pattern : regex :=
  Bol
  >> Group 1 (alts (word "feat")
                [word "fix"; word "docs"; word "style"; word "refactor";
                 word "perf"; word "test"; word "build"; word "ci";
                 word "chore"; word "revert"])
  >> Opt (Group 2 (chr 40%N >> Plus ADot >> chr 41%N))
  >> chr 58%N >> chr 32%N >> Plus ADot >> Eol.

(** ** Clean-up of the extracted text

    The five substitutions both scripts apply, in the order of the source. *)
Definition sanitize (commit_full : pystr) : pystr :=
  let commit_full := re_sub newline_escape [NL] commit_full in
  let commit_full := re_sub return_escape [] commit_full in
  let commit_full := re_sub leading_space [] commit_full in
  let commit_full := re_sub trailing_space [] commit_full in
  let commit_full := re_sub alpha_escape [] commit_full in
  commit_full.

(** The text after the fourth substitution, before the last one. *)
Definition sanitize_trimmed (commit_full : pystr) : pystr :=
  re_sub trailing_space []
    (re_sub leading_space []
       (re_sub return_escape [] (re_sub newline_escape [NL] commit_full))).

(** ** Python values, exceptions, effects *)

(** What [response.json()] can return, and [None].  A float is kept only up
    to the one thing the scripts can observe of it, whether it is zero. *)
Inductive value :=
| VNone
| VBool (b : bool)
| VInt (z : Z)
| VFloat (is_zero : bool)
| VStr (s : pystr)
| VList (xs : list value)
| VDict (kvs : list (pystr * value)).

Definition truthy (v : value) : bool :=
  match v with
  | VNone => false
  | VBool b => b
  | VInt z => negb (Z.eqb z 0)
  | VFloat is_zero => negb is_zero
  | VStr s => match s with [] => false | _ => true end
  | VList xs => match xs with [] => false | _ => true end
  | VDict kvs => match kvs with [] => false | _ => true end
  end.

Definition str_truthy (s : pystr) : bool :=
  match s with [] => false | _ => true end.

Inductive exn :=
| KeyError | IndexError | TypeError | ValueError | UnicodeDecodeError.

Inductive result (A : Type) :=
| Ok (a : A)
| Raise (e : exn).
Arguments Ok {A} a.
Arguments Raise {A} e.

Definition rbind {A B} (r : result A) (f : A -> result B) : result B :=
  match r with
  | Ok a => f a
  | Raise e => Raise e
  end.

Fixpoint assoc {A} (key : pystr) (kvs : list (pystr * A)) : option A :=
  match kvs with
  | [] => None
  | (k, v) :: kvs' => if str_eqb k key then Some v else assoc key kvs'
  end.

(** [v[key]] with a [str] key. *)
Definition getitem_str (v : value) (key : pystr) : result value :=
  match v with
  | VDict kvs =>
      match assoc key kvs with
      | Some x => Ok x
      | None => Raise KeyError
      end
  | _ => Raise TypeError
  end.

(** [v[n]] with a non-negative [int].  The keys of a parsed JSON object are
    strings, so an [int] is never among them. *)
Definition getitem_int (v : value) (n : nat) : result value :=
  match v with
  | VList xs =>
      match nth_error xs n with
      | Some x => Ok x
      | None => Raise IndexError
      end
  | VStr s =>
      match nth_error s n with
      | Some c => Ok (VStr [c])
      | None => Raise IndexError
      end
  | VDict _ => Raise KeyError
  | _ => Raise TypeError
  end.

(** [bytes]: a list of numbers below 256. *)
Definition bytes := list N.

(** The object [subprocess.run] returns when only [stdout] is piped. *)
Record CompletedProcess := {
  args : list pystr;
  returncode : Z;
  stdout : bytes
}.

(** [CompletedProcess] defines neither [__bool__] nor [__len__]: every
    instance is true. *)
Definition CompletedProcess_truthy (p : CompletedProcess) : bool := true.

(** What is shown after a debug message: [str(content)] of a string, of a
    parsed response, or of [json.dumps(payload, indent=2)]. *)
Inductive content :=
| CStr (s : pystr)
| CVal (v : value)
| CDumps (v : value).

Definition content_truthy (c : option content) : bool :=
  match c with
  | None => false
  | Some (CStr s) => str_truthy s
  | Some (CVal v) => truthy v
  | Some (CDumps _) => true
  end.

(** What a run does to the outside. *)
Inductive event :=
| Echo (err : bool) (text : pystr)         (* click.echo, err=True or not *)
| EchoContent (c : content)                (* the DEBUG: Content >>> ... <<< block *)
| Post (url : pystr) (headers : list (pystr * pystr)) (payload : value)
| Write (filename : pystr) (text : pystr). (* a file opened with mode w and written *)

Definition fsys := list (pystr * pystr).

Record state := {
  files : fsys;
  trace : list event
}.

(** What a call of [requests.post] followed by [raise_for_status] and
    [json()] comes to.  Only the outcomes that [make_api_request] handles are
    modelled: an exception that is not a RequestException (a key that cannot
    be sent as a header, for one) is outside this type. *)
Inductive http_outcome :=
| HttpJson (j : value)        (* 2xx with a JSON body *)
| HttpFail (e : pystr).       (* a RequestException, with its text *)

(** What the run cannot decide by itself.  Files are opened in text mode with
    the encoding of the locale, on a platform whose line separator is the
    line feed. *)
Record world := {
  git : list pystr -> Z * bytes;      (* exit status and stdout of a git command *)
  getenv : pystr -> option pystr;
  http_post : pystr -> list (pystr * pystr) -> value -> http_outcome;
  realpath : pystr -> pystr;
  open_w_fails : pystr -> bool;       (* open(filename, w) raises *)
  read_fails : pystr -> bool;         (* open(filename, r) or read raises *)
  file_encodable : pystr -> bool      (* the text can be encoded for a file *)
}.

(** The monad of the scripts: a state and a possible exception. *)
Definition M (A : Type) := state -> result A * state.

Definition ret {A} (a : A) : M A := fun st => (Ok a, st).
Definition raise {A} (e : exn) : M A := fun st => (Raise e, st).
Definition bind {A B} (m : M A) (f : A -> M B) : M B :=
  fun st =>
    match m st with
    | (Ok a, st') => f a st'
    | (Raise e, st') => (Raise e, st')
    end.
Definition lift {A} (r : result A) : M A := fun st => (r, st).

Declare Scope py_scope.
Delimit Scope py_scope with py.
Notation "x <- m ;; k" := (bind m (fun x => k))
  (at level 100, m at next level, right associativity) : py_scope.
Notation "m ;; k" := (bind m (fun _ => k))
  (at level 100, right associativity) : py_scope.
Local Open Scope py_scope.

Definition emit (e : event) : M unit :=
  fun st => (Ok tt, {| files := files st; trace := trace st ++ [e] |}).

(** [click.echo] on a stream that can encode the text it is given, as a
    UTF-8 terminal can for every text the two scripts build from decoded
    output, JSON and their own messages.  A stream of a narrower encoding,
    on which the call raises UnicodeEncodeError, is outside the model. *)
Definition echo (err : bool) (text : pystr) : M unit := emit (Echo err text).

Fixpoint remove_file (filename : pystr) (fs : fsys) : fsys :=
  match fs with
  | [] => []
  | (k, v) :: fs' =>
      if str_eqb k filename then remove_file filename fs'
      else (k, v) :: remove_file filename fs'
  end.

(** Opening with mode w truncates; the text written is then all there is. *)
Definition store (filename text : pystr) : M unit :=
  fun st => (Ok tt, {| files := (filename, text) :: remove_file filename (files st);
                       trace := trace st ++ [Write filename text] |}).

(** ** Library functions the scripts call *)

Fixpoint dropwhile (p : char -> bool) (s : pystr) : pystr :=
  match s with
  | x :: s' => if p x then dropwhile p s' else s
  | [] => []
  end.

Definition strip_with (p : char -> bool) (s : pystr) : pystr :=
  rev (dropwhile p (rev (dropwhile p s))).

(** [str.strip()]. *)
Definition str_strip (s : pystr) : pystr := strip_with is_space s.

(** [bytes.strip()]: blank, tab, line feed, return, vertical tab, form feed. *)
Definition is_bspace (c : N) : bool :=
  ((9 <=? c) && (c <=? 13) || (c =? 32))%N.
Definition bytes_strip (b : bytes) : bytes := strip_with is_bspace b.

Definition is_cont (b : N) : bool := ((128 <=? b) && (b <=? 191))%N.

(** [bytes.decode(utf-8)], strict: [None] stands for UnicodeDecodeError. *)
Fixpoint utf8_decode (b : bytes) : option pystr :=
  match b with
  | [] => Some []
  | b0 :: t0 =>
      if (b0 <? 128)%N then option_map (cons b0) (utf8_decode t0)
      else if ((194 <=? b0) && (b0 <=? 223))%N then
        match t0 with
        | b1 :: t1 =>
            if is_cont b1
            then option_map (cons ((b0 - 192) * 64 + (b1 - 128))%N)
                            (utf8_decode t1)
            else None
        | _ => None
        end
      else if ((224 <=? b0) && (b0 <=? 239))%N then
        match t0 with
        | b1 :: b2 :: t2 =>
            if is_cont b1 && is_cont b2
               && negb ((b0 =? 224) && (b1 <? 160))%N
               && negb ((b0 =? 237) && (160 <=? b1))%N
            then option_map
                   (cons ((b0 - 224) * 4096 + (b1 - 128) * 64 + (b2 - 128))%N)
                   (utf8_decode t2)
            else None
        | _ => None
        end
      else if ((240 <=? b0) && (b0 <=? 244))%N then
        match t0 with
        | b1 :: b2 :: b3 :: t3 =>
            if is_cont b1 && is_cont b2 && is_cont b3
               && negb ((b0 =? 240) && (b1 <? 144))%N
               && negb ((b0 =? 244) && (144 <=? b1))%N
            then option_map
                   (cons ((b0 - 240) * 262144 + (b1 - 128) * 4096
                          + (b2 - 128) * 64 + (b3 - 128))%N)
                   (utf8_decode t3)
            else None
        | _ => None
        end
      else None
  end.

Fixpoint join (sep : pystr) (parts : list pystr) : pystr :=
  match parts with
  | [] => []
  | [p] => p
  | p :: ps => p ++ sep ++ join sep ps
  end.

Definition join_lines (ls : list pystr) : pystr := join [NL] ls.

(** [template.format(arg0, arg1, ...)] for templates whose only fields are
    empty braces, as in the scripts; doubled braces stand for one brace.  A
    field with a name or a number does not occur in the scripts and is
    answered with ValueError here. *)
Fixpoint format_from (n : nat) (tpl : pystr) (fargs : list pystr)
  : result pystr :=
  match tpl with
  | [] => Ok []
  | c :: t =>
      if char_eqb c 123%N then
        match t with
        | d :: t' =>
            if char_eqb d 123%N
            then rbind (format_from n t' fargs) (fun r => Ok (c :: r))
            else if char_eqb d 125%N then
              match nth_error fargs n with
              | Some a => rbind (format_from (S n) t' fargs)
                                (fun r => Ok (a ++ r))
              | None => Raise IndexError
              end
            else Raise ValueError
        | [] => Raise ValueError
        end
      else if char_eqb c 125%N then
        match t with
        | d :: t' =>
            if char_eqb d 125%N
            then rbind (format_from n t' fargs) (fun r => Ok (c :: r))
            else Raise ValueError
        | [] => Raise ValueError
        end
      else rbind (format_from n t fargs) (fun r => Ok (c :: r))
  end.

Definition format (tpl : pystr) (fargs : list pystr) : result pystr :=
  format_from 0 tpl fargs.

(** [repr] of an [int]. *)
Definition repr_int (z : Z) : pystr := lit (NilZero.string_of_int (Z.to_int z)).

Definition hexdigit (n : N) : char :=
  (if n <? 10 then 48 + n else 87 + n)%N.

(** [repr] of a [bytes] object. *)
Definition repr_bytes (b : bytes) : pystr :=
  let squotes := existsb (N.eqb 39) b in
  let dquotes := existsb (N.eqb 34) b in
  let quote : char := if squotes && negb dquotes then 34%N else 39%N in
  let esc (c : N) : pystr :=
    if (c =? quote)%N || (c =? 92)%N then [BSL; c]
    else if (c =? 9)%N then [BSL; 116%N]
    else if (c =? 10)%N then [BSL; 110%N]
    else if (c =? 13)%N then [BSL; 114%N]
    else if (c <? 32)%N || (127 <=? c)%N
         then [BSL; 120%N; hexdigit (c / 16); hexdigit (c mod 16)]
    else [c] in
  [98%N; quote] ++ flat_map esc b ++ [quote].

(** [repr] of a [str] built from printable ASCII without quotes or
    backslashes, which is what the argument vectors of the scripts hold. *)
Definition repr_str (s : pystr) : pystr := [39%N] ++ s ++ [39%N].

Definition repr_list (xs : list pystr) : pystr :=
  lit "[" ++ join (lit ", ") (List.map repr_str xs) ++ lit "]".

(** [str] of a [CompletedProcess] whose [stderr] was not captured. *)
Definition str_CompletedProcess (p : CompletedProcess) : pystr :=
  lit "CompletedProcess(args=" ++ repr_list (args p)
    ++ lit ", returncode=" ++ repr_int (returncode p)
    ++ lit ", stdout=" ++ repr_bytes (stdout p) ++ lit ")".

(** What reading in text mode makes of the line ends: a carriage return
    with the line feed after it, and a carriage return alone, both become a
    line feed. *)
Fixpoint universal_newlines (s : pystr) : pystr :=
  match s with
  | [] => []
  | x :: t =>
      if char_eqb x 13%N then
        match t with
        | y :: t' =>
            if char_eqb y NL then NL :: universal_newlines t'
            else NL :: universal_newlines t
        | [] => [NL]
        end
      else x :: universal_newlines t
  end.

(** The texts UTF-8 can encode: those without a surrogate code point. *)
Definition utf8_encodable (s : pystr) : bool :=
  forallb (fun c => negb ((55296 <=? c) && (c <=? 57343))%N) s.

(** ** Functions the two scripts define word for word alike *)

(** A function that was passed around as a value, such as the [debug_log]
    closure of [main]. *)
Definition logger := pystr -> option content -> M value.

(** The closure [debug_log(message, content=None)] of [main]; having no
    [return], it answers [None]. *)
Definition debug_log (debug : bool) : logger :=
  fun message content =>
    if debug then
      echo false (lit "DEBUG: " ++ message);;
      (if content_truthy content
       then match content with
            | Some c => emit (EchoContent c)
            | None => ret tt
            end
       else ret tt);;
      ret VNone
    else ret VNone.

(** [subprocess.run(argv, stdout=subprocess.PIPE)]. *)
Definition subprocess_run (w : world) (argv : list pystr) : M CompletedProcess :=
  ret {| args := argv;
         returncode := fst (git w argv);
         stdout := snd (git w argv) |}.

(** With [check=True] a non-zero exit status raises CalledProcessError,
    which the function answers with [False]. *)
Definition is_git_repository (w : world) : M bool :=
  p <- subprocess_run w [lit "git"; lit "rev-parse"; lit "--git-dir"];;
  ret (Z.eqb (returncode p) 0).

(** [write_file(filename, content)]: any exception gives [False].  Opening
    truncates the file; writing something that is not a [str], or a text that
    cannot be encoded, fails after that and leaves the file empty. *)
Definition write_file (w : world) (filename : pystr) (content : value) : M bool :=
  if open_w_fails w filename then ret false
  else
    match content with
    | VStr s =>
        if file_encodable w s
        then store filename s;; ret true
        else store filename [];; ret false
    | _ => store filename [];; ret false
    end.

Definition api_url : pystr := lit "https://openrouter.ai/api/v1/chat/completions".

Definition payload_of (model user_prompt system_prompt : pystr) : value :=
  VDict
    [ (lit "stream", VBool false);
      (lit "transforms", VList [VStr (lit "middle-out")]);
      (lit "model", VStr model);
      (lit "messages",
       VList
         [ VDict [(lit "role", VStr (lit "user")); (lit "content", VStr user_prompt)];
           VDict [(lit "role", VStr (lit "system")); (lit "content", VStr system_prompt)] ]) ].

Definition make_api_request (w : world)
           (model user_prompt system_prompt api_key : pystr)
           (debug_log : logger) : M value :=
  let url := api_url in
  let headers :=
    [ (lit "Authorization", lit "Bearer " ++ api_key);
      (lit "Content-Type", lit "application/json") ] in
  let payload := payload_of model user_prompt system_prompt in
  debug_log (lit "Making API request to OpenRouter") (Some (CDumps payload));;
  emit (Post url headers payload);;
  match http_post w url headers payload with
  | HttpJson j =>
      debug_log (lit "API response received") (Some (CVal j));;
      ret j
  | HttpFail e =>
      debug_log (lit "ERROR: API request failed with error: " ++ e) None;;
      ret VNone
  end.

(** The key path choices, 0, message, content. *)
Definition lookup_content (response : value) : result value :=
  rbind (getitem_str response (lit "choices")) (fun r1 =>
  rbind (getitem_int r1 0) (fun r2 =>
  rbind (getitem_str r2 (lit "message")) (fun r3 =>
  getitem_str r3 (lit "content")))).

(** [re.search(pattern, response)] of the fallback: on anything but a [str]
    it raises TypeError; [match.group(1) if match else None]. *)
Definition fallback_content (response : value) : result value :=
  match response with
  | VStr s =>
      match re_search content_pattern s with
      | Some (_, _, g) =>
          match group 1 g with
          | Some x => Ok (VStr x)
          | None => Ok VNone
          end
      | None => Ok VNone
      end
  | _ => Raise TypeError
  end.

(** The [try] ... [except (KeyError, IndexError, TypeError)] block with which
    both extraction functions begin. *)
Definition extracted (response : value) : result value :=
  match lookup_content response with
  | Ok v => Ok v
  | Raise KeyError | Raise IndexError | Raise TypeError =>
      fallback_content response
  | Raise e => Raise e
  end.

(** The five [re.sub] calls on what was extracted; [re.sub] raises TypeError
    when its subject is not a [str]. *)
Definition cleaned (commit_full : value) : result pystr :=
  match commit_full with
  | VStr s => Ok (sanitize s)
  | _ => Raise TypeError
  end.

(** Actual arguments of a call. *)
Inductive arg :=
| AVal (v : value)
| AFun (f : logger).

(** ** prepare-commit-msg.py *)

Module PrepareCommitMsg.

Definition USER_PROMPT : pystr :=
  join_lines
    [ lit "Generate a commit message based on the following changes below:";
      [];
      lit "\```";
      lit "{}";
      lit "\```";
      [];
      lit "IMPORTANT";
      [];
      lit "  - Follow conventional commit format";
      lit "  - First line should be a concise summary (max 50 characters)";
      lit "  - Do not include any explanation in your response";
      lit "  - Only return a commit message content";
      lit "  - Do not wrap it in backticks";
      lit "  - One change per line.";
      lit "  - All lines should be a concise summary (max 80 characters)";
      lit "  " ].

Definition SYSTEM_PROMPT : pystr :=
  join_lines
    [ lit "Provide a detailed commit message with a title and description.";
      lit "The title should be a concise summary (max 50 characters).";
      lit "The description should provide more context about the changes,";
      lit "explaining why the changes were made and their impact.";
      lit "Use bullet points if multiple changes are significant.";
      [];
      lit "SPECIFICATION";
      [];
      lit "The key words MUST, MUST NOT, REQUIRED, SHALL, SHALL NOT, SHOULD, SHOULD NOT, RECOMMENDED, MAY, and OPTIONAL in this document are to be interpreted as described in RFC 2119.";
      [];
      lit "- Commits MUST be prefixed with a type, which consists of a noun, feat, fix, etc., followed by the OPTIONAL scope, OPTIONAL !, and REQUIRED terminal colon and space.";
      lit "- The type feat MUST be used when a commit adds a new feature to your application or library.";
      lit "- The type fix MUST be used when a commit represents a bug fix for your application.";
      lit "- A scope MAY be provided after a type. A scope MUST consist of a noun describing a section of the codebase surrounded by parenthesis, e.g., fix(parser):";
      lit "- A description MUST immediately follow the colon and space after the type/scope prefix. The description is a short summary of the code changes, e.g., fix: array parsing issue when multiple spaces were contained in string.";
      lit "- A longer commit body MAY be provided after the short description, providing additional contextual information about the code changes. The body MUST begin one blank line after the description.";
      lit "- A commit body is free-form and MAY consist of any number of newline separated paragraphs.";
      lit "- One or more footers MAY be provided one blank line after the body. Each footer MUST consist of a word token, followed by either a :<space> or <space># separator, followed by a string value (this is inspired by the git trailer convention).";
      lit "- A footer's token MUST use - in place of whitespace characters, e.g., Acked-by (this helps differentiate the footer section from a multi-paragraph body). An exception is made for BREAKING CHANGE, which MAY also be used as a token.";
      lit "- A footer's value MAY contain spaces and newlines, and parsing MUST terminate when the next valid footer token/separator pair is observed.";
      lit "- Breaking changes MUST be indicated in the type/scope prefix of a commit, or as an entry in the footer.";
      lit "- If included as a footer, a breaking change MUST consist of the uppercase text BREAKING CHANGE, followed by a colon, space, and description, e.g., BREAKING CHANGE: environment variables now take precedence over config files.";
      lit "- If included in the type/scope prefix, breaking changes MUST be indicated by a ! immediately before the :. If ! is used, BREAKING CHANGE: MAY be omitted from the footer section, and the commit description SHALL be used to describe the breaking change.";
      lit "- Types other than feat and fix MAY be used in your commit messages, e.g., docs: update ref docs.";
      lit "- The units of information that make up Conventional Commits MUST NOT be treated as case sensitive by implementors, with the exception of BREAKING CHANGE which MUST be uppercase.";
      lit "- BREAKING-CHANGE MUST be synonymous with BREAKING CHANGE, when used as a token in a footer.";
      [];
      lit "EXAMPLES";
      [];
      lit "Commit message with description and breaking change footer:";
      [];
      lit "  feat: allow provided config object to extend other configs";
      lit "  BREAKING CHANGE: 'extends' key in config file is now used for extending other config files";
      [];
      lit "Commit message with ! to draw attention to breaking change:";
      [];
      lit "  feat!: send an email to the customer when a product is shipped";
      [];
      lit "Commit message with scope and ! to draw attention to breaking change:";
      [];
      lit "  feat(api)!: send an email to the customer when a product is shipped";
      [];
      lit "Commit message with both ! and BREAKING CHANGE footer:";
      [];
      lit "  chore!: drop support for Node 6";
      lit "  BREAKING CHANGE: use JavaScript features not available in Node 6.";
      [];
      lit "Commit message with no body:";
      [];
      lit "  docs: correct spelling of CHANGELOG";
      [];
      lit "Commit message with scope:";
      [];
      lit "  feat(lang): add Polish language";
      [];
      lit "Commit message with multi-paragraph body and multiple footers:";
      [];
      lit "  fix: prevent racing of requests";
      [];
      lit "  Introduce a request id and a reference to latest request. Dismiss";
      lit "  incoming responses other than from latest request.";
      [];
      lit "  Remove timeouts which were used to mitigate the racing issue but are";
      lit "  obsolete now.";
      lit "    " ].

Definition extract_commit_message (response : value) (debug_log : logger)
  : M pystr :=
  commit_full <- lift (extracted response);;
  commit_full <- lift (cleaned commit_full);;
  debug_log (lit "Extracted commit message ") (Some (CStr commit_full));;
  ret commit_full.

(** Calling [extract_commit_message]: its two parameters are both required
    and positional, so any other number of arguments is a TypeError before
    the body runs. *)
Definition extract_commit_message_call (actuals : list arg) : M pystr :=
  match actuals with
  | [AVal response; AFun debug_log] => extract_commit_message response debug_log
  | _ => raise TypeError
  end.

Definition validate_commit_message (message : pystr) : bool :=
  let pattern := conventional_pattern in
  match re_match pattern message with
  | None => false
  | Some _ => true
  end.

(** [main] from the test on [commit_full] to its end. *)
Definition main_finish (w : world) (debug_log : logger)
           (commit_msg_filename commit_full : pystr) : M unit :=
  if negb (str_truthy commit_full) then
    echo true (lit "ERROR: Failed to extract commit message from API response.")
  else
    (if negb (validate_commit_message commit_full)
     then echo true (lit "ERROR: Generated message does not follow conventional commit format")
     else ret tt);;
    debug_log (lit "Writing commit message to " ++ realpath w commit_msg_filename) None;;
    ok <- write_file w commit_msg_filename (VStr commit_full);;
    if negb ok then
      text <- lift (format (lit "ERROR: Failed to write commit message to {}")
                           [commit_msg_filename]);;
      echo true text
    else ret tt.

Definition main (w : world) (debug : bool) (model commit_msg_filename : pystr)
           (open_source : bool) (system_prompt user_prompt : option pystr)
  : M unit :=
  let debug_log := debug_log debug in
  debug_log (lit "MODEL=" ++ model) None;;
  debug_log (lit "COMMIT_MSG_FILENAME=" ++ commit_msg_filename) None;;
  in_repo <- is_git_repository w;;
  if negb in_repo then
    echo true (lit "ERROR: Not in a git repository")
  else
    debug_log (lit "Getting git changes") None;;
    changes <-
      (if open_source
       then subprocess_run w [lit "git"; lit "diff"; lit "--cached";
                              lit "--ignore-all-space"]
       else subprocess_run w [lit "git"; lit "diff"; lit "--cached";
                              lit "--name-status"; lit "--ignore-all-space"]);;
    if negb (CompletedProcess_truthy changes) then
      echo false (lit "INFO: No staged changes found. Please stage your changes using 'git add' first.")
    else
      debug_log (lit "Script started") None;;
      let api_key := getenv w (lit "OPENROUTER_API_KEY") in
      match api_key with
      | None | Some [] =>
          echo true (lit "ERROR: No API key found. Please provide the OpenRouter API key as an argument or set the OPENROUTER_API_KEY environment variable.")
      | Some api_key =>
          user_prompt <- lift (format USER_PROMPT [str_CompletedProcess changes]);;
          let system_prompt := SYSTEM_PROMPT in
          response <- make_api_request w model user_prompt system_prompt
                                       api_key debug_log;;
          debug_log (lit "API response received") (Some (CVal response));;
          commit_full <- extract_commit_message_call [AVal response];;
          main_finish w debug_log commit_msg_filename commit_full
      end.

End PrepareCommitMsg.

(** ** keep-a-changelog.py *)

Module KeepAChangelog.

Definition USER_PROMPT : pystr :=
  join_lines
    [ lit "I want to update my CHANGELOG.md file following Keep a Changelog format.";
      [];
      lit "Ensure the release notes are appended below previous entries and use the Keep a Changelog format. If the file doesn't exist, create it.";
      [];
      lit "\```";
      lit "{}";
      lit "\```";
      [];
      lit "IMPORTANT:";
      lit "  - Group changes by category (Added, Changed, Deprecated, Removed, Fixed, Security)";
      lit "  - Each change should be on a separate line";
      lit "  - Each line should be a concise summary (max 50 characters)";
      lit "  - Do not include any explanation in your response";
      lit "  - Do not wrap it in backticks";
      lit "  - DO NOT, I REPEAT DO NOT, remove or alter previous entries.";
      lit "  - Append new entries at the end of the file and that's it.";
      [] ].

Definition SYSTEM_PROMPT : pystr :=
  join_lines
    [ lit "You are an AI assistant tasked with maintaining a CHANGELOG.md file for a software project.";
      [];
      lit "The output should meet the following criteria:";
      [];
      lit "If the file already exists, append the new release notes under the existing entries.";
      [];
      lit "Follow the Keep a Changelog format strictly:";
      lit "- Provide a " ++ [DQ] ++ lit "## [Unreleased]" ++ [DQ] ++ lit " section if not already present for future updates.";
      lit "- Use a " ++ [DQ] ++ lit "## [Version Number] - YYYY-MM-DD" ++ [DQ] ++ lit " header for the new release.";
      lit "- Organize entries into the following categories if applicable: Added, Changed, Deprecated, Removed, Fixed, Security.";
      [];
      lit "If the file does not exist, initialize it with:";
      [];
      lit "\```";
      lit "# Changelog";
      [];
      lit "All notable changes to this project will be documented in this file.";
      [];
      lit "The format is based on [Keep a Changelog](https://keepachangelog.com/en/1.0.0/).";
      [];
      lit "\```";
      [];
      lit "Example for a new release:";
      [];
      lit "\```markdown";
      lit "## [1.2.0] - 2024-12-01";
      lit "### Added";
      lit "- Added support for user authentication.";
      [];
      lit "### Fixed";
      lit "- Fixed an issue with pagination on the main feed.";
      lit "\```";
      [];
      lit "IMPORTANT:";
      lit "- Ensure entries are clear, concise, and accurately categorized.";
      lit "- Provide the final CHANGELOG.md file as your response.";
      lit "- Do not wrap it in backticks";
      lit "- Return the entire file, old and new entries included.";
      lit "- Keep all existing entries intact.";
      lit "- DO NOT, I REPEAT DO NOT, remove or alter previous entries.";
      [];
      lit "Here is the current changelog:";
      lit "\```";
      lit "{}";
      lit "\```";
      [] ].

Definition is_changelog_staged (w : world) (changelog_filename : pystr) : M bool :=
  result <- subprocess_run w [lit "git"; lit "diff"; lit "--cached";
                              lit "--name-only"; lit "--"; changelog_filename];;
  ret (match bytes_strip (stdout result) with [] => false | _ => true end).

Definition get_git_diff (w : world) : M pystr :=
  result <- subprocess_run w [lit "git"; lit "diff"; lit "--cached";
                              lit "--ignore-all-space"];;
  match utf8_decode (stdout result) with
  | Some text => ret (str_strip text)
  | None => raise UnicodeDecodeError
  end.

(** [read_file]: the text of the file as text mode reads it, or the empty
    string on any exception. *)
Definition read_file (w : world) (filename : pystr) : M pystr :=
  fun st =>
    if read_fails w filename then (Ok [], st)
    else
      match assoc filename (files st) with
      | Some text => (Ok (universal_newlines text), st)
      | None => (Ok [], st)
      end.

(** [os.path.isfile]. *)
Definition isfile (filename : pystr) : M bool :=
  fun st =>
    (Ok (match assoc filename (files st) with Some _ => true | None => false end),
     st).

(** The last assignment binds what [debug_log] returned, and that is what
    the function returns. *)
Definition extract_generated_changelog (response : value) (debug_log : logger)
  : M value :=
  generated_changelog <- lift (extracted response);;
  generated_changelog <- lift (cleaned generated_changelog);;
  generated_changelog <-
    debug_log (lit "Extracted relevant notes") (Some (CStr generated_changelog));;
  ret generated_changelog.

(** [main] from the test on [generated_changelog] to its end. *)
Definition main_finish (w : world) (changelog_filename : pystr)
           (generated_changelog : value) : M unit :=
  if negb (truthy generated_changelog) then
    echo true (lit "ERROR: Failed to extract release notes from API response.")
  else
    ok <- write_file w changelog_filename generated_changelog;;
    if negb ok then
      echo true (lit "ERROR: Failed to write to " ++ changelog_filename)
    else
      echo false (lit "Release notes successfully written to " ++ changelog_filename).

Definition main (w : world) (debug : bool) (model changelog_filename : pystr)
           (system_prompt user_prompt : option pystr) : M unit :=
  let debug_log := debug_log debug in
  debug_log (lit "Script started") None;;
  debug_log (lit "MODEL=" ++ model) None;;
  debug_log (lit "CHANGELOG_FILENAME=" ++ changelog_filename) None;;
  in_repo <- is_git_repository w;;
  if negb in_repo then
    echo true (lit "ERROR: Not in a git repository")
  else
    staged <- is_changelog_staged w changelog_filename;;
    if staged then
      echo false (lit "INFO: Skipping " ++ changelog_filename ++ lit " update")
    else
      changes <- get_git_diff w;;
      if negb (str_truthy changes) then
        echo false (lit "INFO: No staged changes found. Please stage your changes using 'git add' first.")
      else
        there <- isfile changelog_filename;;
        current_changelog <-
          (if there then read_file w changelog_filename else ret []);;
        user_prompt <- lift (format USER_PROMPT [changes]);;
        system_prompt <- lift (format SYSTEM_PROMPT [current_changelog]);;
        let api_key := getenv w (lit "OPENROUTER_API_KEY") in
        match api_key with
        | None | Some [] =>
            echo true (lit "ERROR: No API key found. Please provide the OpenRouter API key as an argument or set the OPENROUTER_API_KEY environment variable.")
        | Some api_key =>
            response <- make_api_request w model user_prompt system_prompt
                                         api_key debug_log;;
            if negb (truthy response) then
              echo true (lit "ERROR: Failed to generate release notes.")
            else
              generated_changelog <-
                extract_generated_changelog response debug_log;;
              main_finish w changelog_filename generated_changelog
        end.

End KeepAChangelog.

(** * Functions of the specification, and what runs are compared with

    Written directly on lists, after the words of the specification, to be
    compared with what the scripts compute. *)

(** Replace every occurrence of the two characters [c d], scanning from the
    left, by [repl]. *)
Fixpoint replace_pair (c d : char) (repl : pystr) (s : pystr) : pystr :=
  match s with
  | [] => []
  | x :: s' =>
      match s' with
      | y :: t =>
          if char_eqb x c && char_eqb y d
          then repl ++ replace_pair c d repl t
          else x :: replace_pair c d repl s'
      | [] => [x]
      end
  end.

(** Step 1: backslash, n becomes a line feed. *)
Definition unescape_newlines (s : pystr) : pystr := replace_pair BSL 110%N [NL] s.
(** Step 2: backslash, r is deleted. *)
Definition drop_returns (s : pystr) : pystr := replace_pair BSL 114%N [] s.
(** Step 3: leading white space is deleted. *)
Definition lstrip (s : pystr) : pystr := dropwhile is_space s.
(** Step 4: trailing white space is deleted. *)
Definition rstrip (s : pystr) : pystr := rev (dropwhile is_space (rev s)).

(** Step 5: a backslash followed by letters is deleted together with the
    whole run of letters.  [skipping] says that the scan is inside such a
    run. *)
Fixpoint strip_escapes (skipping : bool) (s : pystr) : pystr :=
  match s with
  | [] => []
  | x :: t =>
      if skipping && is_alpha x then strip_escapes true t
      else if char_eqb x BSL && match t with y :: _ => is_alpha y | [] => false end
           then strip_escapes true t
           else x :: strip_escapes false t
  end.

Definition remove_escapes (s : pystr) : pystr := strip_escapes false s.

(** A backslash followed by a letter occurs somewhere. *)
Fixpoint has_escape (s : pystr) : bool :=
  match s with
  | [] => false
  | x :: t =>
      (char_eqb x BSL && match t with y :: _ => is_alpha y | [] => false end)
      || has_escape t
  end.

(** The two characters [c d] occur somewhere, next to each other. *)
Fixpoint has_pair (c d : char) (s : pystr) : bool :=
  match s with
  | [] => false
  | x :: t =>
      (char_eqb x c && match t with y :: _ => char_eqb y d | [] => false end)
      || has_pair c d t
  end.

(** No white space at the front, none at the back. *)
Definition starts_clean (s : pystr) : bool :=
  match s with
  | [] => true
  | x :: _ => negb (is_space x)
  end.

Definition ends_clean (s : pystr) : bool := starts_clean (rev s).

(** Length of the leading run of characters that satisfy [p]. *)
Fixpoint run (p : char -> bool) (s : pystr) : nat :=
  match s with
  | x :: s' => if p x then S (run p s') else 0
  | [] => 0
  end.

(** Step 4 once more, by recursion from the front. *)
Fixpoint rstrip_rec (s : pystr) : pystr :=
  match s with
  | [] => []
  | x :: s' => if forallb is_space s then [] else x :: rstrip_rec s'
  end.

(** [s.startswith(prefix)]. *)
Fixpoint starts_with (prefix s : pystr) : bool :=
  match prefix, s with
  | [], _ => true
  | c :: prefix', x :: s' => char_eqb x c && starts_with prefix' s'
  | _ :: _, [] => false
  end.

(** Debug output: the DEBUG: lines and the content blocks after them. *)
Definition is_debug (e : event) : bool :=
  match e with
  | Echo false text => starts_with (lit "DEBUG: ") text
  | EchoContent _ => true
  | _ => false
  end.

(** What a run shows apart from its debug output, in order. *)
Definition visible (tr : list event) : list event :=
  filter (fun e => negb (is_debug e)) tr.

(** [runs m st Q]: started in [st], [m] ends with a result and a state that
    satisfy [Q]. *)
Definition runs {A} (m : M A) (st : state) (Q : result A -> state -> Prop) : Prop :=
  Q (fst (m st)) (snd (m st)).

(** The state [st'] differs from [st] by debug output only. *)
Definition quiet (st st' : state) : Prop :=
  files st' = files st /\ visible (trace st') = visible (trace st).

(** The state [st'] is [st] after the visible events [es], and debug output. *)
Definition after (st : state) (es : list event) (st' : state) : Prop :=
  files st' = files st /\ visible (trace st') = visible (trace st) ++ es.

Definition git_dir_argv : list pystr :=
  [lit "git"; lit "rev-parse"; lit "--git-dir"].

Definition commit_diff_argv (open_source : bool) : list pystr :=
  if open_source
  then [lit "git"; lit "diff"; lit "--cached"; lit "--ignore-all-space"]
  else [lit "git"; lit "diff"; lit "--cached"; lit "--name-status";
        lit "--ignore-all-space"].

(** What [main] of the commit tool binds to [changes]. *)
Definition commit_changes (w : world) (open_source : bool) : CompletedProcess :=
  {| args := commit_diff_argv open_source;
     returncode := fst (git w (commit_diff_argv open_source));
     stdout := snd (git w (commit_diff_argv open_source)) |}.

(** The user message of the commit tool: the template with [str(changes)]
    in the place of its braces. *)
Definition commit_user_prompt (w : world) (open_source : bool) : pystr :=
  firstn 70 PrepareCommitMsg.USER_PROMPT
    ++ str_CompletedProcess (commit_changes w open_source)
    ++ skipn 72 PrepareCommitMsg.USER_PROMPT.

Definition request_headers (api_key : pystr) : list (pystr * pystr) :=
  [ (lit "Authorization", lit "Bearer " ++ api_key);
    (lit "Content-Type", lit "application/json") ].

Definition no_key_message : pystr :=
  lit "ERROR: No API key found. Please provide the OpenRouter API key as an argument or set the OPENROUTER_API_KEY environment variable.".

(** What a run of the commit tool shows, case by case. *)
Definition commit_outcome (w : world) (model : pystr) (open_source : bool)
  : result unit * list event :=
  if Z.eqb (fst (git w git_dir_argv)) 0 then
    match getenv w (lit "OPENROUTER_API_KEY") with
    | None | Some [] => (Ok tt, [Echo true no_key_message])
    | Some api_key =>
        (Raise TypeError,
         [Post api_url (request_headers api_key)
               (payload_of model (commit_user_prompt w open_source)
                           PrepareCommitMsg.SYSTEM_PROMPT)])
    end
  else (Ok tt, [Echo true (lit "ERROR: Not in a git repository")]).

Definition staged_argv (changelog_filename : pystr) : list pystr :=
  [lit "git"; lit "diff"; lit "--cached"; lit "--name-only"; lit "--";
   changelog_filename].

Definition changelog_diff_argv : list pystr :=
  [lit "git"; lit "diff"; lit "--cached"; lit "--ignore-all-space"].

(** The changelog as [main] reads it. *)
Definition current_changelog (w : world) (changelog_filename : pystr)
           (fs : fsys) : pystr :=
  match assoc changelog_filename fs with
  | Some text =>
      if read_fails w changelog_filename then [] else universal_newlines text
  | None => []
  end.

Definition changelog_user_prompt (changes : pystr) : pystr :=
  firstn 216 KeepAChangelog.USER_PROMPT ++ changes
    ++ skipn 218 KeepAChangelog.USER_PROMPT.

Definition changelog_system_prompt (current : pystr) : pystr :=
  firstn 1304 KeepAChangelog.SYSTEM_PROMPT ++ current
    ++ skipn 1306 KeepAChangelog.SYSTEM_PROMPT.

Definition no_staged_message : pystr :=
  lit "INFO: No staged changes found. Please stage your changes using 'git add' first.".

(** The request of the changelog tool, and the response to it. *)
Definition changelog_payload (w : world) (model changelog_filename : pystr)
           (fs : fsys) (changes : pystr) : value :=
  payload_of model (changelog_user_prompt changes)
             (changelog_system_prompt (current_changelog w changelog_filename fs)).

Definition changelog_response (w : world) (model changelog_filename : pystr)
           (fs : fsys) (changes api_key : pystr) : value :=
  match http_post w api_url (request_headers api_key)
                  (changelog_payload w model changelog_filename fs changes) with
  | HttpJson j => j
  | HttpFail _ => VNone
  end.

(** What a run of the changelog tool shows, case by case. *)
Definition changelog_outcome (w : world) (model changelog_filename : pystr)
           (fs : fsys)
  : result unit * list event :=
  if Z.eqb (fst (git w git_dir_argv)) 0 then
    match bytes_strip (snd (git w (staged_argv changelog_filename))) with
    | _ :: _ =>
        (Ok tt, [Echo false (lit "INFO: Skipping " ++ changelog_filename
                                 ++ lit " update")])
    | [] =>
        match utf8_decode (snd (git w changelog_diff_argv)) with
        | None => (Raise UnicodeDecodeError, [])
        | Some text =>
            match str_strip text with
            | [] => (Ok tt, [Echo false no_staged_message])
            | changes =>
                match getenv w (lit "OPENROUTER_API_KEY") with
                | None | Some [] => (Ok tt, [Echo true no_key_message])
                | Some api_key =>
                    let request :=
                      Post api_url (request_headers api_key)
                           (changelog_payload w model changelog_filename fs changes) in
                    let response :=
                      changelog_response w model changelog_filename fs changes api_key in
                    if truthy response then
                      match rbind (extracted response) cleaned with
                      | Ok _ =>
                          (Ok tt,
                           [request;
                            Echo true (lit "ERROR: Failed to extract release notes from API response.")])
                      | Raise e => (Raise e, [request])
                      end
                    else
                      (Ok tt,
                       [request;
                        Echo true (lit "ERROR: Failed to generate release notes.")])
                end
            end
        end
    end
  else (Ok tt, [Echo true (lit "ERROR: Not in a git repository")]).

(** A response of the documented shape, with [S] at the key path. *)
Definition well_formed (S : pystr) : value :=
  VDict [(lit "choices",
          VList [VDict [(lit "message", VDict [(lit "content", VStr S)])]])].

(** The text of a content field as it stands in a raw response: the key
    between double quotes, a colon, the value between double quotes. *)
Definition content_key : pystr := [DQ] ++ lit "content" ++ [DQ; 58%N; DQ].
Definition content_field (v : pystr) : pystr := content_key ++ v ++ [DQ].

Definition empty_state : state := {| files := []; trace := [] |}.

(** The escape token of step 5 standing first, a letter standing last. *)
Definition begins_with_escape (s : pystr) : bool :=
  match s with
  | x :: t => char_eqb x BSL && match t with y :: _ => is_alpha y | [] => false end
  | [] => false
  end.

Definition ends_with_letter (s : pystr) : bool :=
  match rev s with
  | c :: _ => is_alpha c
  | [] => false
  end.

(** The first line of a text. *)
Fixpoint first_line (s : pystr) : pystr :=
  match s with
  | [] => []
  | x :: s' => if char_eqb x NL then [] else x :: first_line s'
  end.

(** No double quote occurs in the text. *)
Definition quote_free (v : pystr) : bool :=
  forallb (fun x => negb (char_eqb x DQ)) v.

(** The payloads of the requests in a trace, in order. *)
Definition posted (tr : list event) : list value :=
  flat_map (fun e => match e with Post _ _ p => [p] | _ => [] end) tr.

(** A world for examples: inside a repository, the changelog not staged,
    [staged] as the output of every diff command, [answer] from the API. *)
Definition sample_world (answer : http_outcome) (staged : bytes)
           (api_key : option pystr) : world :=
  {| git := fun argv =>
              match argv with
              | [_; _; _] => (0%Z, lit ".git" ++ [NL])
              | [_; _; _; _; _; _] => (0%Z, [])
              | _ => (0%Z, staged)
              end;
     getenv := fun _ => api_key;
     http_post := fun _ _ _ => answer;
     realpath := fun p => lit "/repo/" ++ p;
     open_w_fails := fun _ => false;
     read_fails := fun _ => false;
     file_encodable := utf8_encodable |}.

Definition sample_state : state :=
  {| files := [(lit "CHANGELOG.md", lit "# Changelog"); (lit "MSG", lit "old")];
     trace := [] |}.

(** No line feed occurs in the text. *)
Definition no_newline (u : pystr) : bool :=
  forallb (fun x => negb (char_eqb x NL)) u.

(** No one-character matcher of the pattern accepts a line feed. *)
Fixpoint newline_free_atoms (r : regex) : bool :=
  match r with
  | Eps | Bol | Eol => true
  | Atom a | Star a | Plus a => negb (atom_ok a NL)
  | Seq a b | Alt a b => newline_free_atoms a && newline_free_atoms b
  | Opt a | Group _ a => newline_free_atoms a
  end.

(** The conventional-commit pattern up to, and without, its final dollar. *)
Definition conventional_head : regex :=
  Bol
  >> Group 1 (alts (word "feat")
                [word "fix"; word "docs"; word "style"; word "refactor";
                 word "perf"; word "test"; word "build"; word "ci";
                 word "chore"; word "revert"])
  >> Opt (Group 2 (chr 40%N >> Plus ADot >> chr 41%N))
  >> chr 58%N >> chr 32%N >> Plus ADot.

(** The commit types the validation pattern lists. *)
Definition conventional_types : list pystr :=
  [lit "feat"; lit "fix"; lit "docs"; lit "style"; lit "refactor"; lit "perf";
   lit "test"; lit "build"; lit "ci"; lit "chore"; lit "revert"].

(** The text begins with a letter. *)
Definition begins_with_letter (s : pystr) : bool :=
  match s with
  | y :: _ => is_alpha y
  | [] => false
  end.

(** The text [key] occurs somewhere in [s]. *)
Fixpoint occurs (key s : pystr) : bool :=
  starts_with key s
  || match s with
     | [] => false
     | _ :: s' => occurs key s'
     end.

(** No backslash occurs in the text. *)
Definition backslash_free (s : pystr) : bool :=
  forallb (fun x => negb (char_eqb x BSL)) s.

(** A world for examples, with each answer of git given: the exit status of
    the repository test, what the test on the staged changelog prints, what
    the diff commands print. *)
Definition example_world (git_dir_status : Z) (changelog_names staged : bytes)
           (api_key : option pystr) (answer : http_outcome) : world :=
  {| git := fun argv =>
              match argv with
              | [_; _; _] => (git_dir_status, [])
              | [_; _; _; _; _; _] => (0%Z, changelog_names)
              | _ => (0%Z, staged)
              end;
     getenv := fun _ => api_key;
     http_post := fun _ _ _ => answer;
     realpath := fun p => lit "/repo/" ++ p;
     open_w_fails := fun _ => false;
     read_fails := fun _ => false;
     file_encodable := utf8_encodable |}.

(** * Proofs *)

Section Examples.

Example sanitize_ex1 :
  sanitize (lit "  feat: a\nb\r  ") = lit "feat: a" ++ [NL] ++ lit "b".
Proof. vm_compute. reflexivity. Qed.

Example sanitize_ex2 : sanitize (lit "a \t") = lit "a ".
Proof. vm_compute. reflexivity. Qed.

Example re_ex1 :
  re_match conventional_pattern (lit "feat(cli): add flag") <> None.
Proof. vm_compute. discriminate. Qed.

Example re_ex2 : re_match conventional_pattern (lit "added a flag") = None.
Proof. vm_compute. reflexivity. Qed.

Example re_ex3 :
  re_match conventional_pattern (lit "feat: a" ++ [NL] ++ lit "b") = None.
Proof. vm_compute. reflexivity. Qed.

Example format_ex : format (lit "a{}b{{}}") [lit "XY"] = Ok (lit "aXYb{}").
Proof. vm_compute. reflexivity. Qed.

Example str_CompletedProcess_ex :
  str_CompletedProcess
    {| args := [lit "git"; lit "diff"]; returncode := 0; stdout := [77; 9; 97; 10]%N |}
  = lit "CompletedProcess(args=['git', 'diff'], returncode=0, stdout=b'M\ta\n')".
Proof. vm_compute. reflexivity. Qed.

End Examples.

Section EngineFacts.

Lemma eqb_SS_false (i : nat) : Nat.eqb (S (S i)) i = false.
Proof. apply Nat.eqb_neq. lia. Qed.

Lemma accept_adv_later adv i j t g :
  i < j -> accept_adv adv i j t g = Some (j, t, g).
Proof.
  intros H. unfold accept_adv.
  replace (Nat.eqb j i) with false by (symmetry; apply Nat.eqb_neq; lia).
  now rewrite andb_false_r.
Qed.

Lemma atom_ok_space x : atom_ok space_set x = is_space x.
Proof. simpl. now rewrite orb_false_r. Qed.

Lemma atom_ok_alpha x : atom_ok alpha_set x = is_alpha x.
Proof. simpl. unfold is_alpha. now rewrite orb_false_r. Qed.

Lemma atom_ok_not_quote x : atom_ok not_quote x = negb (char_eqb x DQ).
Proof. simpl. now rewrite orb_false_r. Qed.

(** Greedy repetition hands over the longest run whenever the continuation
    accepts it. *)
Lemma greedy_longest p k m : forall s i,
  k (i + run p s) (dropwhile p s) = Some m ->
  greedy p i s k = Some m.
Proof.
  induction s as [|x s IH]; intros i H; simpl in *.
  - now rewrite Nat.add_0_r in H.
  - destruct (p x).
    + rewrite (IH (S i)); [reflexivity|].
      now rewrite <- Nat.add_succ_comm in H.
    + now rewrite Nat.add_0_r in H.
Qed.

Lemma greedy_ext p k k' : (forall j t, k j t = k' j t) ->
  forall s i, greedy p i s k = greedy p i s k'.
Proof.
  intros E. induction s as [|x s IH]; intros i; simpl; [apply E|].
  destruct (p x); [rewrite IH, E|rewrite E]; reflexivity.
Qed.

Lemma exec_pair c d i s g k :
  exec (chr c >> chr d) i s g k =
  match s with
  | x :: y :: t =>
      if char_eqb x c && char_eqb y d then k (S (S i)) t g else None
  | _ => None
  end.
Proof.
  destruct s as [|x [|y t]]; simpl; try reflexivity.
  - now destruct (char_eqb x c).
  - now destruct (char_eqb x c).
Qed.

(** Where the pattern cannot match any more, [re.sub] copies. *)
Lemma sub_loop_copy r repl :
  (forall i s adv, exec r (S i) s [] (accept_adv adv (S i)) = None) ->
  forall fuel i s adv, sub_loop fuel r repl (S i) s adv = s.
Proof.
  intros H. induction fuel as [|f IH]; intros i s adv; simpl; [reflexivity|].
  rewrite H. destruct s as [|x s']; [reflexivity|].
  now rewrite IH.
Qed.

Lemma sub_pair c d repl : forall fuel s i adv,
  2 * List.length s + 2 <= fuel ->
  sub_loop fuel (chr c >> chr d) repl i s adv = replace_pair c d repl s.
Proof.
  induction fuel as [|f IH]; intros s i adv Hf; [lia|].
  cbn [sub_loop]. rewrite exec_pair.
  destruct s as [|x [|y t]]; try reflexivity.
  - cbn [replace_pair]. f_equal. rewrite IH; [reflexivity|simpl in *; lia].
  - cbn [replace_pair].
    destruct (char_eqb x c && char_eqb y d).
    + rewrite accept_adv_later by lia. rewrite IH; [reflexivity|simpl in *; lia].
    + f_equal. rewrite IH; [reflexivity|simpl in *; lia].
Qed.

Lemma re_sub_newline_escape s :
  re_sub newline_escape [NL] s = unescape_newlines s.
Proof. unfold re_sub. apply sub_pair. lia. Qed.

Lemma re_sub_return_escape s :
  re_sub return_escape [] s = drop_returns s.
Proof. unfold re_sub. apply (sub_pair BSL 114%N []). lia. Qed.

End EngineFacts.

Section Substitutions.

Lemma greedy_pred_ext p q k : (forall x, p x = q x) ->
  forall s i, greedy p i s k = greedy q i s k.
Proof.
  intros E. induction s as [|x s IH]; intros i; simpl; [reflexivity|].
  rewrite E, IH. reflexivity.
Qed.

(** Step 3. *)
Lemma exec_leading_later i s k : exec leading_space (S i) s [] k = None.
Proof. reflexivity. Qed.

Lemma sub_loop_S f r repl i s adv :
  sub_loop (S f) r repl i s adv =
  match exec r i s [] (accept_adv adv i) with
  | Some (j, t, _) => repl ++ sub_loop f r repl j t (Nat.eqb j i)
  | None =>
      match s with
      | [] => []
      | x :: s' => x :: sub_loop f r repl (S i) s' false
      end
  end.
Proof. reflexivity. Qed.

Lemma re_sub_leading_space s : re_sub leading_space [] s = lstrip s.
Proof.
  unfold re_sub.
  replace (2 * List.length s + 2) with (S (2 * List.length s + 1)) by lia.
  rewrite sub_loop_S.
  destruct s as [|x s']; [reflexivity|].
  cbn [leading_space exec Nat.eqb]. rewrite atom_ok_space.
  unfold lstrip. cbn [dropwhile].
  destruct (is_space x) eqn:Hx.
  - rewrite (greedy_pred_ext _ is_space _ atom_ok_space).
    rewrite (@greedy_longest is_space _
               (1 + run is_space s', dropwhile is_space s', [])).
    + cbn [app Nat.add]. apply sub_loop_copy. intros. apply exec_leading_later.
    + reflexivity.
  - f_equal. apply sub_loop_copy. intros. apply exec_leading_later.
Qed.

Lemma dropwhile_all p s : forallb p s = true -> dropwhile p s = [].
Proof.
  induction s as [|x s IH]; simpl; [reflexivity|].
  destruct (p x); simpl; [exact IH|discriminate].
Qed.

Lemma run_all p s : forallb p s = true -> run p s = List.length s.
Proof.
  induction s as [|x s IH]; simpl; [reflexivity|].
  destruct (p x); simpl; [intros H; now rewrite IH|discriminate].
Qed.

Lemma space_not_clean_eol x : is_space x = false -> char_eqb x NL = false.
Proof.
  intros H. unfold char_eqb. destruct (N.eqb_spec x NL) as [->|]; [|reflexivity].
  discriminate H.
Qed.

Lemma greedy_eol_none k : forall s i,
  forallb is_space s = false ->
  greedy is_space i s (fun j t => exec Eol j t [] k) = None.
Proof.
  induction s as [|x s IH]; intros i H; [discriminate|].
  cbn [greedy]. cbn [forallb] in H.
  destruct (is_space x) eqn:Hx.
  - simpl in H. rewrite (IH (S i) H).
    destruct s as [|y s]; [discriminate|reflexivity].
  - cbn [exec]. destruct s; [|reflexivity].
    now rewrite (space_not_clean_eol _ Hx).
Qed.

Lemma exec_trailing i s adv :
  exec trailing_space i s [] (accept_adv adv i) =
  match s with
  | [] => None
  | _ :: _ =>
      if forallb is_space s then Some (i + List.length s, [], []) else None
  end.
Proof.
  destruct s as [|x s']; [reflexivity|].
  cbn [trailing_space exec forallb]. rewrite atom_ok_space.
  destruct (is_space x); [|reflexivity].
  rewrite (greedy_pred_ext _ is_space _ atom_ok_space). cbn [andb].
  destruct (forallb is_space s') eqn:Ha.
  - apply greedy_longest. rewrite (dropwhile_all _ _ Ha), (run_all _ _ Ha).
    cbn [exec]. rewrite accept_adv_later by lia.
    cbn [List.length]. now rewrite Nat.add_succ_r.
  - now apply greedy_eol_none.
Qed.

Lemma sub_trailing : forall fuel s i adv,
  2 * List.length s + 2 <= fuel ->
  sub_loop fuel trailing_space [] i s adv = rstrip_rec s.
Proof.
  induction fuel as [|f IH]; intros s i adv Hf; [lia|].
  cbn [sub_loop]. rewrite exec_trailing.
  destruct s as [|x s']; [reflexivity|].
  cbn [rstrip_rec].
  destruct (forallb is_space (x :: s')).
  - cbn [app]. destruct f; [reflexivity|].
    cbn [sub_loop]. now rewrite exec_trailing.
  - f_equal. apply IH. simpl in *. lia.
Qed.

Lemma dropwhile_snoc p s x :
  dropwhile p (s ++ [x]) =
  if forallb p s then (if p x then [] else [x]) else dropwhile p s ++ [x].
Proof.
  induction s as [|y s IH]; simpl; [reflexivity|].
  destruct (p y); simpl; [exact IH|reflexivity].
Qed.

Lemma forallb_rev p (s : pystr) : forallb p (rev s) = forallb p s.
Proof.
  induction s as [|x s IH]; simpl; [reflexivity|].
  rewrite forallb_app, IH. simpl. rewrite andb_true_r. apply andb_comm.
Qed.

Lemma rstrip_rec_nil s : forallb is_space s = true -> rstrip_rec s = [].
Proof. destruct s; simpl; [reflexivity|]. now intros ->. Qed.

Lemma rstrip_rec_rstrip s : rstrip_rec s = rstrip s.
Proof.
  unfold rstrip. induction s as [|x s IH]; [reflexivity|].
  cbn [rstrip_rec rev]. rewrite dropwhile_snoc, forallb_rev.
  cbn [forallb]. destruct (forallb is_space s) eqn:Ha.
  - destruct (is_space x); [reflexivity|]. cbn [andb rev app].
    now rewrite (rstrip_rec_nil _ Ha).
  - rewrite andb_false_r, rev_app_distr. cbn [rev app]. now rewrite IH.
Qed.

Lemma re_sub_trailing_space s : re_sub trailing_space [] s = rstrip s.
Proof.
  unfold re_sub. rewrite sub_trailing by lia. apply rstrip_rec_rstrip.
Qed.

(** Step 5. *)
Lemma exec_alpha i s k :
  exec alpha_escape i s [] k =
  match s with
  | x :: y :: t =>
      if char_eqb x BSL && is_alpha y
      then greedy is_alpha (S (S i)) t (fun j t' => k j t' [])
      else None
  | _ => None
  end.
Proof.
  destruct s as [|x [|y t]]; cbn [alpha_escape chr exec atom_ok].
  - reflexivity.
  - now destruct (char_eqb x BSL).
  - fold (atom_ok alpha_set y). rewrite atom_ok_alpha.
    destruct (char_eqb x BSL); [|reflexivity]. cbn [andb].
    destruct (is_alpha y); [|reflexivity].
    apply greedy_pred_ext. apply atom_ok_alpha.
Qed.

Lemma strip_escapes_skip t :
  strip_escapes true t = strip_escapes false (dropwhile is_alpha t).
Proof.
  induction t as [|x t IH]; [reflexivity|].
  cbn [dropwhile]. destruct (is_alpha x) eqn:Hx.
  - cbn [strip_escapes]. rewrite Hx. exact IH.
  - cbn [strip_escapes]. now rewrite Hx.
Qed.

Lemma dropwhile_length p s : List.length (dropwhile p s) <= List.length s.
Proof.
  induction s as [|x s IH]; simpl; [lia|]. destruct (p x); simpl; lia.
Qed.

Lemma sub_alpha : forall fuel s i adv,
  2 * List.length s + 2 <= fuel ->
  sub_loop fuel alpha_escape [] i s adv = remove_escapes s.
Proof.
  unfold remove_escapes.
  induction fuel as [|f IH]; intros s i adv Hf; [lia|].
  cbn [sub_loop]. rewrite exec_alpha.
  destruct s as [|x [|y t]]; [reflexivity| |].
  - cbn [strip_escapes andb]. rewrite andb_false_r. f_equal.
    apply IH. simpl in *. lia.
  - cbn [strip_escapes andb].
    destruct (char_eqb x BSL && is_alpha y) eqn:Hxy.
    + apply andb_true_iff in Hxy. destruct Hxy as [_ Hy]. rewrite Hy.
      rewrite (@greedy_longest is_alpha _
                 (S (S i) + run is_alpha t, dropwhile is_alpha t, [])).
      * cbn [app]. rewrite IH, strip_escapes_skip; [reflexivity|].
        pose proof (dropwhile_length is_alpha t). simpl in *. lia.
      * apply accept_adv_later. lia.
    + f_equal. apply IH. simpl in *. lia.
Qed.

Lemma re_sub_alpha_escape s : re_sub alpha_escape [] s = remove_escapes s.
Proof. unfold re_sub. apply sub_alpha. lia. Qed.

Lemma remove_escapes_none s : has_escape s = false -> remove_escapes s = s.
Proof.
  unfold remove_escapes. induction s as [|x t IH]; [reflexivity|].
  cbn [has_escape strip_escapes andb]. intros H.
  apply orb_false_iff in H. destruct H as [H1 H2].
  rewrite H1. f_equal. now apply IH.
Qed.

(** The five steps together. *)
Lemma sanitize_steps s :
  sanitize s =
  remove_escapes (rstrip (lstrip (drop_returns (unescape_newlines s)))).
Proof.
  unfold sanitize.
  now rewrite re_sub_newline_escape, re_sub_return_escape,
    re_sub_leading_space, re_sub_trailing_space, re_sub_alpha_escape.
Qed.

Lemma sanitize_trimmed_steps s :
  sanitize_trimmed s = rstrip (lstrip (drop_returns (unescape_newlines s))).
Proof.
  unfold sanitize_trimmed.
  now rewrite re_sub_newline_escape, re_sub_return_escape,
    re_sub_leading_space, re_sub_trailing_space.
Qed.

Lemma sanitize_after_trim s :
  sanitize s = re_sub alpha_escape [] (sanitize_trimmed s).
Proof. reflexivity. Qed.

Lemma starts_clean_dropwhile s : starts_clean (dropwhile is_space s) = true.
Proof.
  induction s as [|x s IH]; [reflexivity|].
  cbn [dropwhile]. destruct (is_space x) eqn:Hx; [exact IH|].
  simpl. now rewrite Hx.
Qed.

Lemma ends_clean_rstrip s : ends_clean (rstrip s) = true.
Proof.
  unfold ends_clean, rstrip. rewrite rev_involutive.
  apply starts_clean_dropwhile.
Qed.

Lemma starts_clean_rstrip s :
  starts_clean s = true -> starts_clean (rstrip s) = true.
Proof.
  rewrite <- rstrip_rec_rstrip. destruct s as [|x s]; [reflexivity|].
  cbn [rstrip_rec]. destruct (forallb is_space (x :: s)); [reflexivity|].
  intros H. exact H.
Qed.

End Substitutions.

Section Runs.

Lemma runs_ret A (a : A) st Q : Q (Ok a) st -> runs (ret a) st Q.
Proof. exact (fun H => H). Qed.

Lemma runs_raise A e st (Q : result A -> state -> Prop) :
  Q (Raise e) st -> runs (raise e) st Q.
Proof. exact (fun H => H). Qed.

Lemma runs_lift A (r : result A) st Q : Q r st -> runs (lift r) st Q.
Proof. exact (fun H => H). Qed.

Lemma runs_bind A B (m : M A) (f : A -> M B) st Q :
  runs m st (fun r st' =>
               match r with
               | Ok a => runs (f a) st' Q
               | Raise e => Q (Raise e) st'
               end) ->
  runs (bind m f) st Q.
Proof.
  unfold runs, bind. destruct (m st) as [[a|e] st']; simpl; exact (fun H => H).
Qed.

Lemma runs_conseq A (m : M A) st (Q Q' : result A -> state -> Prop) :
  runs m st Q -> (forall r st', Q r st' -> Q' r st') -> runs m st Q'.
Proof. unfold runs. intros H HQ. now apply HQ. Qed.

Lemma quiet_refl st : quiet st st.
Proof. now split. Qed.

Lemma quiet_trans a b c : quiet a b -> quiet b c -> quiet a c.
Proof. intros [H1 H2] [H3 H4]. split; congruence. Qed.

Lemma after_nil st st' : quiet st st' <-> after st [] st'.
Proof. unfold quiet, after. now rewrite app_nil_r. Qed.

Lemma after_quiet a es b c : after a es b -> quiet b c -> after a es c.
Proof. intros [H1 H2] [H3 H4]. split; congruence. Qed.

Lemma quiet_after a b es c : quiet a b -> after b es c -> after a es c.
Proof. intros [H1 H2] [H3 H4]. split; congruence. Qed.

Lemma after_after a es b es' c :
  after a es b -> after b es' c -> after a (es ++ es') c.
Proof.
  intros [H1 H2] [H3 H4]. split; [congruence|].
  now rewrite H4, H2, app_assoc.
Qed.

Lemma visible_app a b : visible (a ++ b) = visible a ++ visible b.
Proof. apply filter_app. Qed.

Lemma starts_with_app p s : starts_with p (p ++ s) = true.
Proof.
  induction p as [|c p IH]; [reflexivity|]. simpl.
  unfold char_eqb. now rewrite N.eqb_refl.
Qed.

Lemma runs_emit_debug e st (Q : result unit -> state -> Prop) :
  is_debug e = true ->
  (forall st', quiet st st' -> Q (Ok tt) st') -> runs (emit e) st Q.
Proof.
  intros He H. apply H. split; [reflexivity|]. simpl.
  rewrite visible_app. simpl. rewrite He. simpl. apply app_nil_r.
Qed.

Lemma runs_emit e st (Q : result unit -> state -> Prop) :
  is_debug e = false ->
  (forall st', after st [e] st' -> Q (Ok tt) st') -> runs (emit e) st Q.
Proof.
  intros He H. apply H. split; [reflexivity|]. simpl.
  rewrite visible_app. simpl. now rewrite He.
Qed.

Lemma runs_debug_log d message c st (Q : result value -> state -> Prop) :
  (forall st', quiet st st' -> Q (Ok VNone) st') ->
  runs (debug_log d message c) st Q.
Proof.
  intros H. unfold debug_log. destruct d; [|apply H, quiet_refl].
  apply runs_bind. apply runs_emit_debug.
  { reflexivity. }
  intros st1 H1. apply runs_bind.
  assert (Hc : runs (if content_truthy c
                     then match c with
                          | Some c0 => emit (EchoContent c0)
                          | None => ret tt
                          end
                     else ret tt) st1
                 (fun r st' => r = Ok tt /\ quiet st st')).
  { destruct (content_truthy c); [|now split].
    destruct c as [c0|]; [|now split].
    apply runs_emit_debug; [reflexivity|].
    intros st2 H2. split; [reflexivity|]. eapply quiet_trans; eassumption. }
  eapply runs_conseq; [exact Hc|]. intros r st2 [-> H2]. now apply H.
Qed.

Lemma runs_is_git_repository w st (Q : result bool -> state -> Prop) :
  Q (Ok (Z.eqb (fst (git w [lit "git"; lit "rev-parse"; lit "--git-dir"])) 0)) st ->
  runs (is_git_repository w) st Q.
Proof. exact (fun H => H). Qed.

Lemma runs_make_api_request w model user_prompt system_prompt api_key d st
      (Q : result value -> state -> Prop) :
  let headers := [ (lit "Authorization", lit "Bearer " ++ api_key);
                   (lit "Content-Type", lit "application/json") ] in
  let payload := payload_of model user_prompt system_prompt in
  (forall st',
      after st [Post api_url headers payload] st' ->
      Q (Ok (match http_post w api_url headers payload with
             | HttpJson j => j
             | HttpFail _ => VNone
             end)) st') ->
  runs (make_api_request w model user_prompt system_prompt api_key (debug_log d))
       st Q.
Proof.
  intros headers payload H. unfold make_api_request.
  apply runs_bind, runs_debug_log. intros st1 H1.
  apply runs_bind, runs_emit; [reflexivity|]. intros st2 H2.
  fold headers. fold payload.
  destruct (http_post w api_url headers payload) as [j|e].
  - apply runs_bind, runs_debug_log. intros st3 H3. apply runs_ret, H.
    eapply after_quiet; [|exact H3]. eapply quiet_after; eassumption.
  - apply runs_bind, runs_debug_log. intros st3 H3. apply runs_ret, H.
    eapply after_quiet; [|exact H3]. eapply quiet_after; eassumption.
Qed.

End Runs.

(** A run that ends by echoing one visible line after debug output only. *)
Ltac last_echo :=
  apply runs_emit; [reflexivity|];
  let st' := fresh "st" in
  let H := fresh "H" in
  intros st' H; (split; [reflexivity|]);
  eapply quiet_after; eassumption.

Section CommitRuns.

Import PrepareCommitMsg.

Variable w : world.

Lemma format_USER_PROMPT x :
  format USER_PROMPT [x] =
  Ok (firstn 70 USER_PROMPT ++ x ++ skipn 72 USER_PROMPT).
Proof. vm_compute. reflexivity. Qed.

Lemma commit_main_outcome debug model commit_msg_filename open_source
      system_prompt user_prompt st :
  runs (main w debug model commit_msg_filename open_source
             system_prompt user_prompt) st
       (fun r st' =>
          r = fst (commit_outcome w model open_source) /\
          after st (snd (commit_outcome w model open_source)) st').
Proof.
  unfold main, commit_outcome.
  apply runs_bind, runs_debug_log. intros st1 H1.
  apply runs_bind, runs_debug_log. intros st2 H2.
  pose proof (quiet_trans H1 H2) as H12.
  apply runs_bind, runs_is_git_repository. fold git_dir_argv.
  destruct (Z.eqb (fst (git w git_dir_argv)) 0); cbn [negb].
  - apply runs_bind, runs_debug_log. intros st3 H3.
    pose proof (quiet_trans H12 H3) as H13.
    apply runs_bind.
    assert (Hc : runs (if open_source
                       then subprocess_run w [lit "git"; lit "diff"; lit "--cached";
                                              lit "--ignore-all-space"]
                       else subprocess_run w [lit "git"; lit "diff"; lit "--cached";
                                              lit "--name-status";
                                              lit "--ignore-all-space"]) st3
                   (fun r st' => r = Ok (commit_changes w open_source) /\ st' = st3)).
    { destruct open_source; now split. }
    eapply runs_conseq; [exact Hc|]. intros r st' [-> ->].
    cbn [CompletedProcess_truthy negb].
    apply runs_bind, runs_debug_log. intros st4 H4.
    pose proof (quiet_trans H13 H4) as H14.
    destruct (getenv w (lit "OPENROUTER_API_KEY")) as [[|c key]|].
    + last_echo.
    + apply runs_bind. rewrite format_USER_PROMPT. apply runs_lift.
      fold (commit_user_prompt w open_source).
      apply runs_bind, runs_make_api_request. intros st5 H5.
      apply runs_bind, runs_debug_log. intros st6 H6.
      apply runs_bind, runs_raise. split; [reflexivity|].
      eapply after_quiet; [|exact H6]. eapply quiet_after; eassumption.
    + last_echo.
  - last_echo.
Qed.

End CommitRuns.

Section ChangelogRuns.

Import KeepAChangelog.

Variable w : world.

Lemma format_changelog_USER_PROMPT x :
  format USER_PROMPT [x] =
  Ok (firstn 216 USER_PROMPT ++ x ++ skipn 218 USER_PROMPT).
Proof. vm_compute. reflexivity. Qed.

Lemma format_changelog_SYSTEM_PROMPT x :
  format SYSTEM_PROMPT [x] =
  Ok (firstn 1304 SYSTEM_PROMPT ++ x ++ skipn 1306 SYSTEM_PROMPT).
Proof. vm_compute. reflexivity. Qed.

Lemma runs_extract_generated_changelog response d st
      (Q : result value -> state -> Prop) :
  (forall st', quiet st st' ->
               Q (match rbind (extracted response) cleaned with
                  | Ok _ => Ok VNone
                  | Raise e => Raise e
                  end) st') ->
  runs (extract_generated_changelog response (debug_log d)) st Q.
Proof.
  intros H. unfold extract_generated_changelog.
  apply runs_bind, runs_lift.
  destruct (extracted response) as [v|e]; cbn [rbind] in *;
    [|apply H, quiet_refl].
  apply runs_bind, runs_lift.
  destruct (cleaned v) as [s|e]; [|apply H, quiet_refl].
  apply runs_bind, runs_debug_log. intros st1 H1. now apply runs_ret, H.
Qed.

Lemma changelog_main_outcome debug model changelog_filename
      system_prompt user_prompt st :
  runs (main w debug model changelog_filename system_prompt user_prompt) st
       (fun r st' =>
          r = fst (changelog_outcome w model changelog_filename (files st)) /\
          after st (snd (changelog_outcome w model changelog_filename (files st))) st').
Proof.
  unfold main, changelog_outcome.
  apply runs_bind, runs_debug_log. intros st1 H1.
  apply runs_bind, runs_debug_log. intros st2 H2.
  pose proof (quiet_trans H1 H2) as H12.
  apply runs_bind, runs_debug_log. intros st3 H3.
  pose proof (quiet_trans H12 H3) as H13.
  apply runs_bind, runs_is_git_repository. fold git_dir_argv.
  destruct (Z.eqb (fst (git w git_dir_argv)) 0); cbn [negb].
  2:{ last_echo. }
  apply runs_bind. unfold is_changelog_staged, subprocess_run.
  apply runs_bind, runs_ret, runs_ret. cbn [stdout].
  fold (staged_argv changelog_filename).
  destruct (bytes_strip (snd (git w (staged_argv changelog_filename)))) as [|b bs].
  2:{ last_echo. }
  apply runs_bind. unfold get_git_diff, subprocess_run.
  apply runs_bind, runs_ret. cbn [stdout]. fold changelog_diff_argv.
  destruct (utf8_decode (snd (git w changelog_diff_argv))) as [text|].
  2:{ apply runs_raise. split; [reflexivity|]. now apply after_nil. }
  apply runs_ret.
  destruct (str_strip text) as [|c changes] eqn:Hchanges; cbn [str_truthy negb].
  { last_echo. }
  apply runs_bind. unfold isfile, runs. cbn [fst snd].
  apply runs_bind.
  assert (Hr : runs (if match assoc changelog_filename (files st3) with
                        | Some _ => true
                        | None => false
                        end
                     then read_file w changelog_filename
                     else ret []) st3
                 (fun r st' =>
                    r = Ok (current_changelog w changelog_filename (files st)) /\
                    st' = st3)).
  { unfold current_changelog, runs. destruct H13 as [E _]. rewrite E.
    destruct (assoc changelog_filename (files st)) eqn:Ha; [|now split].
    unfold read_file. rewrite E, Ha.
    destruct (read_fails w changelog_filename); now split. }
  eapply runs_conseq; [exact Hr|]. intros r st' [-> ->].
  apply runs_bind. rewrite format_changelog_USER_PROMPT. apply runs_lift.
  apply runs_bind. rewrite format_changelog_SYSTEM_PROMPT. apply runs_lift.
  fold (changelog_user_prompt (c :: changes)).
  fold (changelog_system_prompt (current_changelog w changelog_filename (files st))).
  destruct (getenv w (lit "OPENROUTER_API_KEY")) as [[|k key]|].
  1,3: last_echo.
  apply runs_bind, runs_make_api_request. intros st4 H4.
  pose proof (quiet_after H13 H4) as H04.
  fold (request_headers (k :: key)) in *.
  fold (changelog_payload w model changelog_filename (files st) (c :: changes)) in *.
  fold (changelog_response w model changelog_filename (files st) (c :: changes) (k :: key)).
  destruct (truthy (changelog_response w model changelog_filename (files st)
                                       (c :: changes) (k :: key))); cbn [negb].
  - apply runs_bind, runs_extract_generated_changelog. intros st5 H5.
    pose proof (after_quiet H04 H5) as H05.
    destruct (rbind (extracted _) cleaned) as [s|e].
    + unfold main_finish. cbn [truthy negb].
      apply runs_emit; [reflexivity|]. intros st6 H6. split; [reflexivity|].
      exact (after_after H05 H6).
    + now split.
  - apply runs_emit; [reflexivity|]. intros st5 H5. split; [reflexivity|].
    exact (after_after H04 H5).
Qed.

End ChangelogRuns.

Section Sanitization.

Lemma strip_escapes_snoc c : is_alpha c = false ->
  forall s b, strip_escapes b (s ++ [c]) = strip_escapes b s ++ [c].
Proof.
  intros Hc. induction s as [|x t IH]; intros b.
  - cbn [app strip_escapes]. rewrite Hc, !andb_false_r. reflexivity.
  - cbn [app strip_escapes].
    replace (match t ++ [c] with y :: _ => is_alpha y | [] => false end)
      with (match t with y :: _ => is_alpha y | [] => false end)
      by (destruct t; simpl; congruence).
    destruct (b && is_alpha x); [apply IH|].
    destruct (char_eqb x BSL && _); [apply IH|].
    cbn [app]. now rewrite IH.
Qed.

Lemma remove_escapes_front t :
  begins_with_escape t = false -> starts_clean t = true ->
  starts_clean (remove_escapes t) = true.
Proof.
  destruct t as [|x t]; [reflexivity|].
  unfold remove_escapes. cbn [begins_with_escape strip_escapes andb].
  now intros ->.
Qed.

Lemma remove_escapes_back t :
  ends_with_letter t = false -> ends_clean t = true ->
  ends_clean (remove_escapes t) = true.
Proof.
  unfold ends_with_letter, ends_clean.
  destruct (rev t) as [|c u] eqn:Hr.
  - intros _ _. apply (f_equal (@rev char)) in Hr.
    rewrite rev_involutive in Hr. now subst t.
  - intros Hc Hs. apply (f_equal (@rev char)) in Hr.
    rewrite rev_involutive in Hr. cbn [rev] in Hr. subst t.
    unfold remove_escapes. rewrite strip_escapes_snoc by exact Hc.
    rewrite rev_app_distr. exact Hs.
Qed.

(** C5, as the code has it.  The text after the fourth step has no white
    space at either end.  The fifth step runs on that text and nothing trims
    after it: the output has no leading white space when the trimmed text
    does not begin with a backslash and a letter, no trailing white space
    when the trimmed text does not end with a letter, and it is the trimmed
    text itself when that holds no backslash followed by a letter. *)
Theorem sanitize_boundaries (s : pystr) :
  starts_clean (sanitize_trimmed s) = true /\
  ends_clean (sanitize_trimmed s) = true /\
  (begins_with_escape (sanitize_trimmed s) = false ->
   starts_clean (sanitize s) = true) /\
  (ends_with_letter (sanitize_trimmed s) = false ->
   ends_clean (sanitize s) = true) /\
  (has_escape (sanitize_trimmed s) = false ->
   sanitize s = sanitize_trimmed s).
Proof.
  assert (Hs : starts_clean (sanitize_trimmed s) = true).
  { rewrite sanitize_trimmed_steps. apply starts_clean_rstrip.
    apply starts_clean_dropwhile. }
  assert (He : ends_clean (sanitize_trimmed s) = true).
  { rewrite sanitize_trimmed_steps. apply ends_clean_rstrip. }
  rewrite sanitize_after_trim, re_sub_alpha_escape.
  repeat split; try assumption.
  - intros H. now apply remove_escapes_front.
  - intros H. now apply remove_escapes_back.
  - apply remove_escapes_none.
Qed.

Lemma sanitize_boundaries_witness :
  begins_with_escape (sanitize_trimmed (lit "  feat: a\nb. ")) = false /\
  ends_with_letter (sanitize_trimmed (lit "  feat: a\nb. ")) = false /\
  has_escape (sanitize_trimmed (lit "  feat: a\nb. ")) = false /\
  starts_clean (sanitize (lit "  feat: a\nb. ")) = true /\
  ends_clean (sanitize (lit "  feat: a\nb. ")) = true /\
  sanitize (lit "  feat: a\nb. ") = sanitize_trimmed (lit "  feat: a\nb. ").
Proof.
  split; [reflexivity|]. split; [reflexivity|]. split; [reflexivity|].
  destruct (sanitize_boundaries (lit "  feat: a\nb. ")) as (_ & _ & H1 & H2 & H3).
  split; [apply H1; reflexivity|].
  split; [apply H2; reflexivity|apply H3; reflexivity].
Defined.

(** C5 as stated fails: deleting a token at the end uncovers the blank that
    stood before it. *)
Lemma sanitize_uncovers_space :
  sanitize (lit "a \t") = lit "a " /\
  ~ (starts_clean (sanitize (lit "a \t")) = true /\
     ends_clean (sanitize (lit "a \t")) = true).
Proof.
  split; [vm_compute; reflexivity|].
  intros [_ H]. vm_compute in H. discriminate H.
Qed.

End Sanitization.

Section Extraction.

Import PrepareCommitMsg.

Lemma replace_pair_none c d repl s :
  has_pair c d s = false -> replace_pair c d repl s = s.
Proof.
  induction s as [|x t IH]; [reflexivity|].
  cbn [has_pair replace_pair]. intros H.
  apply orb_false_iff in H. destruct H as [H1 H2].
  destruct t as [|y t']; [reflexivity|].
  rewrite H1. f_equal. now apply IH.
Qed.

Lemma extracted_well_formed response v :
  lookup_content response = Ok v -> extracted response = Ok v.
Proof. unfold extracted. now intros ->. Qed.

Lemma runs_extract_commit_message response d st
      (Q : result pystr -> state -> Prop) :
  (forall st', quiet st st' ->
               Q (rbind (extracted response) cleaned) st') ->
  runs (extract_commit_message response (debug_log d)) st Q.
Proof.
  intros H. unfold extract_commit_message.
  apply runs_bind, runs_lift.
  destruct (extracted response) as [v|e]; cbn [rbind] in *;
    [|apply H, quiet_refl].
  apply runs_bind, runs_lift.
  destruct (cleaned v) as [s|e]; [|apply H, quiet_refl].
  apply runs_bind, runs_debug_log. intros st1 H1. now apply runs_ret, H.
Qed.

(** C4, as the code has it.  From a well-formed response with the string
    [S] at the key path, extraction returns [S] with every backslash-n
    turned into a line feed, every backslash-r deleted, the white space at
    both ends trimmed and, last, every backslash followed by letters deleted
    together with those letters.  That is [S] with its line feeds converted
    and its ends trimmed whenever the two deleting steps find nothing. *)
Theorem extraction_cleans_content (response : value) (S : pystr)
        (d : bool) (st : state) :
  lookup_content response = Ok (VStr S) ->
  fst (extract_commit_message response (debug_log d) st) =
    Ok (remove_escapes
          (rstrip (lstrip (drop_returns (unescape_newlines S))))) /\
  (has_pair BSL 114%N (unescape_newlines S) = false ->
   has_escape (rstrip (lstrip (unescape_newlines S))) = false ->
   fst (extract_commit_message response (debug_log d) st) =
     Ok (rstrip (lstrip (unescape_newlines S)))).
Proof.
  intros Hl.
  assert (H : fst (extract_commit_message response (debug_log d) st) =
              Ok (sanitize S)).
  { apply (@runs_extract_commit_message response d st
             (fun r _ => r = Ok (sanitize S))).
    intros st' _. now rewrite (extracted_well_formed _ Hl). }
  rewrite H, sanitize_steps. split; [reflexivity|].
  intros Hr He. unfold drop_returns.
  rewrite (replace_pair_none _ _ _ _ Hr).
  now rewrite (remove_escapes_none _ He).
Qed.

Lemma extraction_cleans_content_witness :
  lookup_content (well_formed (lit " fix: a\nb ")) = Ok (VStr (lit " fix: a\nb ")) /\
  fst (extract_commit_message (well_formed (lit " fix: a\nb ")) (debug_log true)
                              empty_state)
  = Ok (lit "fix: a" ++ [NL] ++ lit "b").
Proof.
  split; [reflexivity|].
  destruct (@extraction_cleans_content (well_formed (lit " fix: a\nb "))
              (lit " fix: a\nb ") true empty_state eq_refl) as [_ H].
  rewrite H; reflexivity.
Defined.

(** C4 as stated fails: what the last step deletes is not in the result. *)
Lemma extraction_deletes_more :
  lookup_content (well_formed (lit "fix: a\nb\tc")) = Ok (VStr (lit "fix: a\nb\tc")) /\
  fst (extract_commit_message (well_formed (lit "fix: a\nb\tc")) (debug_log false)
                              empty_state)
  = Ok (lit "fix: a" ++ [NL] ++ lit "b") /\
  fst (extract_commit_message (well_formed (lit "fix: a\nb\tc")) (debug_log false)
                              empty_state)
  <> Ok (rstrip (lstrip (unescape_newlines (lit "fix: a\nb\tc")))).
Proof.
  split; [reflexivity|]. split; [vm_compute; reflexivity|].
  vm_compute. intros H. discriminate H.
Qed.

(** The fallback pattern, step by step. *)
Lemma exec_chr_seq c r i s g k :
  exec (chr c >> r) i s g k =
  match s with
  | x :: t => if char_eqb x c then exec r (S i) t g k else None
  | [] => None
  end.
Proof. destruct s; reflexivity. Qed.

Lemma exec_seq_assoc a b c i s g k :
  exec ((a >> b) >> c) i s g k = exec (a >> b >> c) i s g k.
Proof. reflexivity. Qed.

Lemma exec_content_pattern_none i s k :
  starts_with content_key s = false -> exec content_pattern i s [] k = None.
Proof.
  unfold content_pattern, content_key, word.
  cbn [lit list_ascii_of_string List.map app lits starts_with].
  repeat match goal with
         | |- context [N_of_ascii ?a] =>
             let v := eval vm_compute in (N_of_ascii a) in
             change (N_of_ascii a) with v
         end.
  intros H.
  repeat (try rewrite exec_seq_assoc; rewrite exec_chr_seq;
          destruct s as [|? s]; [reflexivity|];
          cbn [starts_with] in H;
          match goal with
          | |- context [char_eqb ?x ?c] =>
              destruct (char_eqb x c); [cbn [andb] in H|reflexivity]
          end).
  discriminate H.
Qed.

End Extraction.

Section Fallback.

Import PrepareCommitMsg.

Lemma run_stop p v x q :
  forallb p v = true -> p x = false -> run p (v ++ x :: q) = List.length v.
Proof.
  intros Hv Hx. induction v as [|y v IH]; simpl in *.
  - now rewrite Hx.
  - apply andb_true_iff in Hv. destruct Hv as [-> Hv]. now rewrite IH.
Qed.

Lemma dropwhile_stop p v x q :
  forallb p v = true -> p x = false -> dropwhile p (v ++ x :: q) = x :: q.
Proof.
  intros Hv Hx. induction v as [|y v IH]; simpl in *.
  - now rewrite Hx.
  - apply andb_true_iff in Hv. destruct Hv as [-> Hv]. now apply IH.
Qed.

Lemma firstn_exact (v q : pystr) i :
  firstn (i + List.length v - i) (v ++ q) = v.
Proof.
  replace (i + List.length v - i) with (List.length v + 0) by lia.
  rewrite firstn_app_2. simpl. apply app_nil_r.
Qed.

Lemma exec_content_pattern_field i v q :
  quote_free v = true ->
  exec content_pattern i (content_field v ++ q) [] accept =
  Some (i + List.length (content_field v), q, [(1, v)]).
Proof.
  intros Hv. unfold content_pattern, content_field, content_key, word.
  cbn [lit list_ascii_of_string List.map app lits].
  repeat match goal with
         | |- context [N_of_ascii ?a] =>
             let n := eval vm_compute in (N_of_ascii a) in
             change (N_of_ascii a) with n
         end.
  repeat (try rewrite exec_seq_assoc; rewrite exec_chr_seq;
          change (char_eqb DQ DQ) with true; cbv iota;
          try match goal with
              | |- context [char_eqb ?x ?c] =>
                  change (char_eqb x c) with true; cbv iota
              end).
  cbn [exec].
  rewrite <- app_assoc. cbn [app].
  assert (Hq : atom_ok not_quote DQ = false) by reflexivity.
  assert (Hall : forallb (atom_ok not_quote) v = true).
  { unfold quote_free in Hv. rewrite forallb_forall in *.
    intros x Hx. rewrite atom_ok_not_quote. now apply Hv. }
  apply greedy_longest.
  rewrite (@run_stop _ _ _ q Hall Hq), (@dropwhile_stop _ _ _ q Hall Hq).
  rewrite firstn_exact. unfold chr, accept. cbn [exec atom_ok].
  change (char_eqb DQ DQ) with true. cbv iota.
  do 3 f_equal. cbn [List.length]. rewrite length_app. simpl. lia.
Qed.

Lemma search_skip r rest : forall p i,
  (forall n, n < List.length p ->
             exec r (i + n) (skipn n (p ++ rest)) [] accept = None) ->
  search_from r i (p ++ rest) = search_from r (i + List.length p) rest.
Proof.
  induction p as [|x p IH]; intros i H.
  - simpl. now rewrite Nat.add_0_r.
  - cbn [app search_from].
    pose proof (H 0 ltac:(simpl; lia)) as H0.
    rewrite Nat.add_0_r in H0. cbn [skipn app] in H0. rewrite H0.
    rewrite IH.
    + f_equal. simpl. lia.
    + intros n Hn. specialize (H (S n) ltac:(simpl; lia)).
      now rewrite Nat.add_succ_r in H.
Qed.

Lemma search_hit r i s m :
  exec r i s [] accept = Some m -> search_from r i s = Some m.
Proof. destruct s; simpl; now intros ->. Qed.

(** C8, as the code has it.  On a string, the fallback returns the value of
    the first content field: the text [v], free of double quotes, of a field
    before which the key does not occur. *)
Theorem fallback_takes_first_field (p v q : pystr) :
  quote_free v = true ->
  (forall n, n < List.length p ->
             starts_with content_key (skipn n (p ++ content_field v ++ q)) = false) ->
  extracted (VStr (p ++ content_field v ++ q)) = Ok (VStr v).
Proof.
  intros Hv Hp. unfold extracted. cbn [lookup_content getitem_str rbind].
  unfold fallback_content, re_search.
  rewrite search_skip.
  - erewrite search_hit; [|apply exec_content_pattern_field, Hv].
    reflexivity.
  - intros n Hn. apply exec_content_pattern_none. now apply Hp.
Qed.

Lemma fallback_takes_first_field_witness :
  quote_free (lit "hello world") = true /\
  extracted (VStr (lit "{" ++ content_field (lit "hello world") ++ []))
  = Ok (VStr (lit "hello world")).
Proof.
  split; [reflexivity|].
  apply (@fallback_takes_first_field (lit "{") (lit "hello world") []).
  - reflexivity.
  - intros n Hn. destruct n as [|n]; [reflexivity|]. simpl in Hn. lia.
Defined.

(** C8 as stated fails: an earlier field wins. *)
Lemma fallback_earlier_field_wins :
  extracted (VStr (content_field (lit "x") ++ lit ","
                     ++ content_field (lit "hello world") ++ []))
  = Ok (VStr (lit "x")) /\
  extracted (VStr (content_field (lit "x") ++ lit ","
                     ++ content_field (lit "hello world") ++ []))
  <> Ok (VStr (lit "hello world")).
Proof.
  split; [vm_compute; reflexivity|].
  vm_compute. intros H. discriminate H.
Qed.

End Fallback.

Section Validation.

Import PrepareCommitMsg.

Lemma greedy_consumed p k m : forall s i,
  greedy p i s k = Some m ->
  exists u t j, s = u ++ t /\ forallb p u = true /\ k j t = Some m.
Proof.
  induction s as [|x s IH]; intros i H; cbn [greedy] in H.
  - exists [], [], i. now repeat split.
  - destruct (p x) eqn:Hx.
    + destruct (greedy p (S i) s k) as [m'|] eqn:Hg.
      * injection H as <-. destruct (IH _ Hg) as (u & t & j & -> & Hu & Hk).
        exists (x :: u), t, j. repeat split; [|exact Hk].
        simpl. now rewrite Hx.
      * exists [], (x :: s), i. now repeat split.
    + exists [], (x :: s), i. now repeat split.
Qed.

Lemma atom_rejects_newline a x :
  negb (atom_ok a NL) = true -> atom_ok a x = true -> char_eqb x NL = false.
Proof.
  intros Hn Hx. unfold char_eqb. destruct (N.eqb_spec x NL) as [->|]; [|reflexivity].
  rewrite Hx in Hn. discriminate Hn.
Qed.

Lemma no_newline_run a u :
  negb (atom_ok a NL) = true -> forallb (atom_ok a) u = true -> no_newline u = true.
Proof.
  intros Hn Hu. unfold no_newline. rewrite forallb_forall in *.
  intros x Hx. now rewrite (atom_rejects_newline a x Hn (Hu x Hx)).
Qed.

Lemma no_newline_app u v :
  no_newline u = true -> no_newline v = true -> no_newline (u ++ v) = true.
Proof. intros Hu Hv. unfold no_newline in *. now rewrite forallb_app, Hu, Hv. Qed.

(** Whatever a pattern of such atoms consumes holds no line feed. *)
Lemma exec_consumed r : newline_free_atoms r = true ->
  forall i s g k m,
    exec r i s g k = Some m ->
    exists u t j g',
      s = u ++ t /\ no_newline u = true /\ k j t g' = Some m.
Proof.
  induction r as [|a|a|a| | |a IHa b IHb|a IHa b IHb|a IHa|n a IHa];
    intros Hr i s g k m H; cbn [newline_free_atoms exec] in *.
  - exists [], s, i, g. now repeat split.
  - destruct s as [|x s]; [discriminate|].
    destruct (atom_ok a x) eqn:Hx; [|discriminate].
    exists [x], s, (S i), g. repeat split; [|exact H].
    unfold no_newline. simpl. now rewrite (atom_rejects_newline a x Hr Hx).
  - destruct (greedy_consumed _ _ _ _ H) as (u & t & j & -> & Hu & Hk).
    exists u, t, j, g. repeat split; [|exact Hk].
    exact (no_newline_run a u Hr Hu).
  - destruct s as [|x s]; [discriminate|].
    destruct (atom_ok a x) eqn:Hx; [|discriminate].
    destruct (greedy_consumed _ _ _ _ H) as (u & t & j & -> & Hu & Hk).
    exists (x :: u), t, j, g. repeat split; [|exact Hk].
    apply (no_newline_app [x] u); [|exact (no_newline_run a u Hr Hu)].
    unfold no_newline. simpl. now rewrite (atom_rejects_newline a x Hr Hx).
  - destruct (Nat.eqb i 0); [|discriminate].
    exists [], s, i, g. now repeat split.
  - exists [], s, i, g. repeat split.
    destruct s as [|c [|d s]]; [exact H| |discriminate].
    destruct (char_eqb c NL); [exact H|discriminate].
  - apply andb_true_iff in Hr. destruct Hr as [Ha Hb].
    destruct (IHa Ha _ _ _ _ _ H) as (u & t & j & g' & -> & Hu & Hk).
    destruct (IHb Hb _ _ _ _ _ Hk) as (u' & t' & j' & g'' & -> & Hu' & Hk').
    exists (u ++ u'), t', j', g''. repeat split; [|now apply no_newline_app|exact Hk'].
    now rewrite app_assoc.
  - apply andb_true_iff in Hr. destruct Hr as [Ha Hb].
    destruct (exec a i s g k) as [m'|] eqn:Ea.
    + injection H as <-. exact (IHa Ha _ _ _ _ _ Ea).
    + exact (IHb Hb _ _ _ _ _ H).
  - destruct (exec a i s g k) as [m'|] eqn:Ea.
    + injection H as <-. exact (IHa Hr _ _ _ _ _ Ea).
    + exists [], s, i, g. now repeat split.
  - destruct (IHa Hr _ _ _ _ _ H) as (u & t & j & g' & -> & Hu & Hk).
    exists u, t, j, ((n, firstn (j - i) (u ++ t)) :: g'). now repeat split.
Qed.

Lemma conventional_split i s g k :
  exec conventional_pattern i s g k =
  exec conventional_head i s g (fun j t g' => exec Eol j t g' k).
Proof. reflexivity. Qed.

Lemma first_line_whole u : no_newline u = true -> first_line u = u.
Proof.
  induction u as [|x u IH]; [reflexivity|]. unfold no_newline in *. simpl.
  intros H. apply andb_true_iff in H. destruct H as [Hx Hu].
  apply negb_true_iff in Hx. rewrite Hx. now rewrite IH.
Qed.

Lemma first_line_before u r :
  no_newline u = true -> first_line (u ++ NL :: r) = u.
Proof.
  induction u as [|x u IH]; [reflexivity|]. unfold no_newline in *. simpl.
  intros H. apply andb_true_iff in H. destruct H as [Hx Hu].
  apply negb_true_iff in Hx. rewrite Hx. now rewrite IH.
Qed.

Lemma validate_single_line m :
  validate_commit_message m = true ->
  m = first_line m \/ m = first_line m ++ [NL].
Proof.
  unfold validate_commit_message, re_match.
  destruct (exec conventional_pattern 0 m [] accept) as [x|] eqn:E;
    [intros _|discriminate].
  rewrite conventional_split in E.
  apply exec_consumed in E; [|reflexivity].
  destruct E as (u & t & j & g' & -> & Hu & Hk). cbn [exec] in Hk.
  destruct t as [|c [|d t]]; [| |discriminate].
  - left. rewrite app_nil_r. now rewrite first_line_whole.
  - unfold char_eqb in Hk. destruct (N.eqb_spec c NL) as [->|]; [|discriminate].
    right. now rewrite first_line_before.
Qed.

(** C7: what [validate_commit_message] answers.  It answers as the
    specification says at the two inputs named there.  It accepts no message
    that goes on after its first line: an accepted message is its first
    line, with at most one line feed after it.  So the message with a body
    taken from the examples of [SYSTEM_PROMPT] is rejected although its
    first line, on its own, is accepted. *)
Theorem validate_rejects_message_with_body :
  validate_commit_message (lit "feat(cli): add flag") = true /\
  validate_commit_message (lit "added a flag") = false /\
  (forall m, validate_commit_message m = true ->
             m = first_line m \/ m = first_line m ++ [NL]) /\
  first_line (lit "fix: prevent racing of requests" ++ [NL; NL]
                ++ lit "Introduce a request id and a reference to latest request.")
  = lit "fix: prevent racing of requests" /\
  validate_commit_message (lit "fix: prevent racing of requests") = true /\
  validate_commit_message
    (lit "fix: prevent racing of requests" ++ [NL; NL]
       ++ lit "Introduce a request id and a reference to latest request.")
  = false.
Proof.
  split; [vm_compute; reflexivity|]. split; [vm_compute; reflexivity|].
  split; [exact validate_single_line|].
  repeat split; vm_compute; reflexivity.
Qed.

Lemma validate_rejects_message_with_body_witness :
  validate_commit_message (lit "feat(cli): add flag") = true /\
  (lit "feat(cli): add flag" = first_line (lit "feat(cli): add flag") \/
   lit "feat(cli): add flag" = first_line (lit "feat(cli): add flag") ++ [NL]).
Proof.
  split; [reflexivity|].
  apply (proj1 (proj2 (proj2 validate_rejects_message_with_body))
               (lit "feat(cli): add flag")).
  reflexivity.
Defined.

End Validation.


Section CommitClaims.

Import PrepareCommitMsg.

Lemma in_visible e tr : is_debug e = false -> In e tr <-> In e (visible tr).
Proof.
  intros He. unfold visible. rewrite filter_In, He. simpl. tauto.
Qed.

Lemma posted_app a b : posted (a ++ b) = posted a ++ posted b.
Proof. apply flat_map_app. Qed.

Lemma posted_visible tr : posted (visible tr) = posted tr.
Proof.
  induction tr as [|e tr IH]; [reflexivity|].
  cbn [visible filter]. fold (visible tr).
  destruct (is_debug e) eqn:He; cbn [negb].
  - rewrite IH. destruct e as [[|] text|c|u h p|g t]; try discriminate He;
      reflexivity.
  - cbn [posted flat_map]. fold (posted (visible tr)) (posted tr).
    now rewrite IH.
Qed.

Lemma str_eqb_refl s : str_eqb s s = true.
Proof.
  induction s as [|x s IH]; [reflexivity|]. simpl.
  unfold char_eqb. now rewrite N.eqb_refl, IH.
Qed.

(** C1: the commit tool never writes.  No run changes a file or adds a write
    to the trace.  A run that reaches the extraction stage ends there, in the
    TypeError of a call that passes one argument where two are required:
    so it is at a response that holds the message feat(cli): add flag, and
    so it is in every repository and with every API key. *)
Theorem commit_tool_never_writes :
  (forall w debug model commit_msg_filename open_source system_prompt
          user_prompt st,
      let out := main w debug model commit_msg_filename open_source
                      system_prompt user_prompt st in
      files (snd out) = files st /\
      forall g t, In (Write g t) (trace (snd out)) -> In (Write g t) (trace st)) /\
  (let w := sample_world (HttpJson (well_formed (lit "feat(cli): add flag")))
                         (lit "M src/cli.py") (Some (lit "sk-key")) in
   let out := main w false (lit "google/gemini-flash-1.5-8b") (lit "MSG")
                   false None None sample_state in
   fst out = Raise TypeError /\
   assoc (lit "MSG") (files (snd out)) = Some (lit "old")) /\
  (forall w debug model commit_msg_filename open_source system_prompt
          user_prompt st c key,
      fst (git w git_dir_argv) = 0%Z ->
      getenv w (lit "OPENROUTER_API_KEY") = Some (c :: key) ->
      fst (main w debug model commit_msg_filename open_source
                system_prompt user_prompt st) = Raise TypeError).
Proof.
  split; [|split].
  3:{ intros w debug model f os sp up st c key Hrepo Hkey.
      pose proof (commit_main_outcome w debug model f os sp up st) as H.
      unfold runs, commit_outcome in H. rewrite Hrepo, Hkey in H.
      exact (proj1 H). }
  - intros w debug model f os sp up st out.
    pose proof (commit_main_outcome w debug model f os sp up st) as H.
    unfold runs in H. fold out in H. destruct H as [_ [Hf Hv]].
    split; [exact Hf|]. intros g t Hin.
    apply (in_visible (Write g t)); [reflexivity|].
    apply (in_visible (Write g t)) in Hin; [|reflexivity].
    rewrite Hv in Hin. apply in_app_or in Hin. destruct Hin as [Hin|Hin];
      [exact Hin|].
    exfalso. unfold commit_outcome in Hin.
    destruct (Z.eqb (fst (git w git_dir_argv)) 0);
      [destruct (getenv w (lit "OPENROUTER_API_KEY")) as [[|c key]|]|];
      simpl in Hin; destruct Hin as [Hin|[]]; discriminate Hin.
  - vm_compute. split; reflexivity.
Qed.

Lemma commit_tool_never_writes_witness :
  let w := sample_world (HttpJson (well_formed (lit "feat: x")))
                        (lit "M a.py") (Some (lit "sk-key")) in
  fst (git w git_dir_argv) = 0%Z /\
  getenv w (lit "OPENROUTER_API_KEY") = Some (lit "sk-key") /\
  fst (main w true (lit "m") (lit "MSG") true None None sample_state)
  = Raise TypeError.
Proof.
  intros w. split; [reflexivity|]. split; [reflexivity|].
  apply (proj2 (proj2 commit_tool_never_writes) w true (lit "m") (lit "MSG")
               true None None sample_state 115%N (lit "k-key"));
    reflexivity.
Defined.

(** C3: with nothing staged the commit tool still sends its request.  In a
    repository and with an API key, a run whose diff command printed nothing
    shows exactly one thing, the request; the message about missing staged
    changes is not among what it shows. *)
Theorem commit_tool_requests_without_staged_changes
        (w : world) (debug : bool) (model commit_msg_filename : pystr)
        (open_source : bool) (system_prompt user_prompt : option pystr)
        (st : state) (c : char) (key : pystr) :
  fst (git w git_dir_argv) = 0%Z ->
  snd (git w (commit_diff_argv open_source)) = [] ->
  getenv w (lit "OPENROUTER_API_KEY") = Some (c :: key) ->
  visible (trace (snd (main w debug model commit_msg_filename open_source
                            system_prompt user_prompt st)))
  = visible (trace st)
      ++ [Post api_url (request_headers (c :: key))
               (payload_of model (commit_user_prompt w open_source)
                           SYSTEM_PROMPT)].
Proof.
  intros Hrepo _ Hkey.
  pose proof (commit_main_outcome w debug model commit_msg_filename
                open_source system_prompt user_prompt st) as H.
  unfold runs, commit_outcome in H. rewrite Hrepo, Hkey in H.
  destruct H as [_ [_ Hv]]. exact Hv.
Qed.

Lemma commit_tool_requests_without_staged_changes_witness :
  let w := sample_world (HttpJson (well_formed (lit "feat: x"))) []
                        (Some (lit "sk-key")) in
  snd (git w (commit_diff_argv false)) = [] /\
  posted (visible (trace (snd (main w false (lit "m") (lit "MSG") false
                                    None None sample_state))))
  = [payload_of (lit "m") (commit_user_prompt w false) SYSTEM_PROMPT].
Proof.
  intros w. split; [reflexivity|].
  rewrite (@commit_tool_requests_without_staged_changes
             w false (lit "m") (lit "MSG") false None None sample_state
             115%N (lit "k-key") eq_refl eq_refl eq_refl).
  reflexivity.
Defined.

End CommitClaims.

Section MoreCommitClaims.

Import PrepareCommitMsg.

Lemma getitem_str_raises v key e :
  getitem_str v key = Raise e -> e = KeyError \/ e = TypeError.
Proof.
  destruct v; simpl; try (intros [= <-]; now right).
  destruct (assoc key kvs); [discriminate|]. intros [= <-]. now left.
Qed.

Lemma getitem_int_raises v n e :
  getitem_int v n = Raise e -> e = KeyError \/ e = IndexError \/ e = TypeError.
Proof.
  destruct v; simpl; try (intros [= <-]; tauto).
  - destruct (nth_error s n); [discriminate|]. intros [= <-]. tauto.
  - destruct (nth_error xs n); [discriminate|]. intros [= <-]. tauto.
Qed.

Lemma lookup_content_raises response e :
  lookup_content response = Raise e ->
  e = KeyError \/ e = IndexError \/ e = TypeError.
Proof.
  unfold lookup_content.
  destruct (getitem_str response (lit "choices")) as [r1|e1] eqn:E1; cbn [rbind].
  2:{ intros [= <-]. apply getitem_str_raises in E1. tauto. }
  destruct (getitem_int r1 0) as [r2|e2] eqn:E2; cbn [rbind].
  2:{ intros [= <-]. apply getitem_int_raises in E2. tauto. }
  destruct (getitem_str r2 (lit "message")) as [r3|e3] eqn:E3; cbn [rbind].
  2:{ intros [= <-]. apply getitem_str_raises in E3. tauto. }
  intros E4. apply getitem_str_raises in E4. tauto.
Qed.

Lemma extracted_fallback response :
  (forall v, lookup_content response <> Ok v) ->
  extracted response = fallback_content response.
Proof.
  intros H. unfold extracted.
  destruct (lookup_content response) as [v|e] eqn:E; [now destruct (H v)|].
  destruct (lookup_content_raises _ E) as [->|[->| ->]]; reflexivity.
Qed.

(** C6: extraction without a match does not return.  When the key path is
    missing and the fallback has nothing to offer, because the response is
    not a string or because the pattern does not occur in it,
    [extract_commit_message] raises TypeError and leaves the state as it was;
    and a run of [main] that receives such a response ends in a TypeError
    having shown its request and nothing else: no error message, no write. *)
Theorem extraction_failure_raises :
  (forall response d st,
      (forall v, lookup_content response <> Ok v) ->
      (forall s, response = VStr s -> re_search content_pattern s = None) ->
      extract_commit_message response (debug_log d) st = (Raise TypeError, st)) /\
  (forall w debug model commit_msg_filename open_source system_prompt
          user_prompt st c key response,
      fst (git w git_dir_argv) = 0%Z ->
      getenv w (lit "OPENROUTER_API_KEY") = Some (c :: key) ->
      http_post w api_url (request_headers (c :: key))
                (payload_of model (commit_user_prompt w open_source) SYSTEM_PROMPT)
      = HttpJson response ->
      (forall v, lookup_content response <> Ok v) ->
      (forall s, response = VStr s -> re_search content_pattern s = None) ->
      let out := main w debug model commit_msg_filename open_source
                      system_prompt user_prompt st in
      fst out = Raise TypeError /\
      files (snd out) = files st /\
      visible (trace (snd out))
      = visible (trace st)
          ++ [Post api_url (request_headers (c :: key))
                   (payload_of model (commit_user_prompt w open_source)
                               SYSTEM_PROMPT)]).
Proof.
  split.
  - intros response d st Hl Hs. unfold extract_commit_message, bind, lift.
    rewrite (extracted_fallback _ Hl). unfold fallback_content.
    destruct response as [| | | |s| |]; try reflexivity.
    now rewrite (Hs s eq_refl).
  - intros w debug model f os sp up st c key response Hrepo Hkey _ _ _ out.
    pose proof (commit_main_outcome w debug model f os sp up st) as H.
    unfold runs, commit_outcome in H. fold out in H.
    rewrite Hrepo, Hkey in H. destruct H as [Hr [Hf Hv]]. now repeat split.
Qed.

Lemma extraction_failure_raises_witness :
  let response := VDict [(lit "error", VStr (lit "rate limited"))] in
  let w := sample_world (HttpJson response) (lit "M a.py") (Some (lit "sk-key")) in
  (forall v, lookup_content response <> Ok v) /\
  extract_commit_message response (debug_log true) sample_state
  = (Raise TypeError, sample_state) /\
  fst (main w true (lit "m") (lit "MSG") false None None sample_state)
  = Raise TypeError.
Proof.
  intros response w.
  assert (Hl : forall v, lookup_content response <> Ok v) by (intros v; discriminate).
  assert (Hs : forall s, response = VStr s -> re_search content_pattern s = None)
    by (intros s; discriminate).
  split; [exact Hl|]. split.
  - apply (proj1 extraction_failure_raises response true sample_state Hl Hs).
  - apply (proj2 extraction_failure_raises w true (lit "m") (lit "MSG") false
                 None None sample_state 115%N (lit "k-key") response
                 eq_refl eq_refl eq_refl Hl Hs).
Defined.

(** C9: a message that fails validation is neither reported nor written.
    The end of [main] would echo the format error and then write the message
    whatever the validation says, but no run gets there: a run whose response
    holds a message that is not empty and fails [validate_commit_message]
    ends, like every run that reaches the extraction, in the TypeError of the
    call with one argument too few.  It has shown its request and nothing
    else: no error line, and no write. *)
Theorem invalid_message_is_not_written
        (w : world) (debug : bool) (model commit_msg_filename : pystr)
        (open_source : bool) (system_prompt user_prompt : option pystr)
        (st : state) (c : char) (key : pystr) (response : value) (S : pystr) :
  fst (git w git_dir_argv) = 0%Z ->
  getenv w (lit "OPENROUTER_API_KEY") = Some (c :: key) ->
  http_post w api_url (request_headers (c :: key))
            (payload_of model (commit_user_prompt w open_source) SYSTEM_PROMPT)
  = HttpJson response ->
  lookup_content response = Ok (VStr S) ->
  sanitize S <> [] ->
  validate_commit_message (sanitize S) = false ->
  let out := main w debug model commit_msg_filename open_source
                  system_prompt user_prompt st in
  fst out = Raise TypeError /\
  files (snd out) = files st /\
  visible (trace (snd out))
  = visible (trace st)
      ++ [Post api_url (request_headers (c :: key))
               (payload_of model (commit_user_prompt w open_source)
                           SYSTEM_PROMPT)] /\
  (forall text, In (Echo true text) (trace (snd out)) ->
                In (Echo true text) (trace st)) /\
  (forall g t, In (Write g t) (trace (snd out)) -> In (Write g t) (trace st)).
Proof.
  intros Hrepo Hkey _ _ _ _ out.
  pose proof (commit_main_outcome w debug model commit_msg_filename
                open_source system_prompt user_prompt st) as H.
  unfold runs, commit_outcome in H. fold out in H.
  rewrite Hrepo, Hkey in H. destruct H as [Hr [Hf Hv]].
  split; [exact Hr|]. split; [exact Hf|]. split; [exact Hv|]. split.
  - intros text Hin.
    apply (in_visible (Echo true text)); [reflexivity|].
    apply (in_visible (Echo true text)) in Hin; [|reflexivity].
    rewrite Hv in Hin. apply in_app_or in Hin.
    destruct Hin as [Hin|[Hin|[]]]; [exact Hin|discriminate Hin].
  - intros g t Hin.
    apply (in_visible (Write g t)); [reflexivity|].
    apply (in_visible (Write g t)) in Hin; [|reflexivity].
    rewrite Hv in Hin. apply in_app_or in Hin.
    destruct Hin as [Hin|[Hin|[]]]; [exact Hin|discriminate Hin].
Qed.

Lemma invalid_message_is_not_written_witness :
  let w := sample_world (HttpJson (well_formed (lit "added a flag")))
                        (lit "M src/cli.py") (Some (lit "sk-key")) in
  let out := main w false (lit "m") (lit "MSG") false None None sample_state in
  sanitize (lit "added a flag") <> [] /\
  validate_commit_message (sanitize (lit "added a flag")) = false /\
  fst out = Raise TypeError /\
  files (snd out) = files sample_state.
Proof.
  intros w out.
  assert (Hne : sanitize (lit "added a flag") <> [])
    by (intros H; vm_compute in H; discriminate H).
  assert (Hval : validate_commit_message (sanitize (lit "added a flag")) = false)
    by reflexivity.
  split; [exact Hne|]. split; [exact Hval|].
  destruct (@invalid_message_is_not_written
              w false (lit "m") (lit "MSG") false None None sample_state
              115%N (lit "k-key") (well_formed (lit "added a flag"))
              (lit "added a flag") eq_refl eq_refl eq_refl eq_refl Hne Hval)
    as (H1 & H2 & _).
  split; [exact H1|exact H2].
Defined.

End MoreCommitClaims.

(** The cases in which a run posts nothing. *)
Ltac nothing_posted :=
  cbn [snd posted flat_map app]; rewrite ?app_nil_r; tauto.

Section ChangelogClaims.

(** C10: the prompt options are without effect.  In both tools a run with
    other values for the two options is the same run, result, files and
    trace; and what a run posts is nothing, or one payload whose two
    messages are the built-in templates filled with the diff (and, for the
    changelog tool, with the changelog as read). *)
Theorem prompt_options_ignored :
  (forall w debug model commit_msg_filename open_source st
          system_prompt user_prompt system_prompt' user_prompt',
      PrepareCommitMsg.main w debug model commit_msg_filename open_source
                            system_prompt user_prompt st
      = PrepareCommitMsg.main w debug model commit_msg_filename open_source
                              system_prompt' user_prompt' st) /\
  (forall w debug model changelog_filename st
          system_prompt user_prompt system_prompt' user_prompt',
      KeepAChangelog.main w debug model changelog_filename
                          system_prompt user_prompt st
      = KeepAChangelog.main w debug model changelog_filename
                            system_prompt' user_prompt' st) /\
  (forall w debug model commit_msg_filename open_source st
          system_prompt user_prompt,
      let out := PrepareCommitMsg.main w debug model commit_msg_filename
                                       open_source system_prompt user_prompt st in
      posted (trace (snd out)) = posted (trace st) \/
      posted (trace (snd out))
      = posted (trace st)
          ++ [payload_of model (commit_user_prompt w open_source)
                         PrepareCommitMsg.SYSTEM_PROMPT]) /\
  (forall w debug model changelog_filename st system_prompt user_prompt,
      let out := KeepAChangelog.main w debug model changelog_filename
                                     system_prompt user_prompt st in
      posted (trace (snd out)) = posted (trace st) \/
      exists changes,
        posted (trace (snd out))
        = posted (trace st)
            ++ [payload_of model (changelog_user_prompt changes)
                           (changelog_system_prompt
                              (current_changelog w changelog_filename (files st)))]).
Proof.
  split; [reflexivity|]. split; [reflexivity|]. split.
  - intros w debug model f os st sp up out.
    pose proof (commit_main_outcome w debug model f os sp up st) as H.
    unfold runs in H. fold out in H. destruct H as [_ [_ Hv]].
    rewrite <- (posted_visible (trace (snd out))), Hv, posted_app, posted_visible.
    unfold commit_outcome.
    destruct (Z.eqb (fst (git w git_dir_argv)) 0);
      [destruct (getenv w (lit "OPENROUTER_API_KEY")) as [[|c key]|]|];
      nothing_posted.
  - intros w debug model f st sp up out.
    pose proof (changelog_main_outcome w debug model f sp up st) as H.
    unfold runs in H. fold out in H. destruct H as [_ [_ Hv]].
    rewrite <- (posted_visible (trace (snd out))), Hv, posted_app, posted_visible.
    unfold changelog_outcome.
    destruct (Z.eqb (fst (git w git_dir_argv)) 0);
      [|nothing_posted].
    destruct (bytes_strip (snd (git w (staged_argv f))));
      [|nothing_posted].
    destruct (utf8_decode (snd (git w changelog_diff_argv)));
      [|nothing_posted].
    destruct (str_strip p) as [|x changes];
      [nothing_posted|].
    destruct (getenv w (lit "OPENROUTER_API_KEY")) as [[|c key]|];
      [nothing_posted| |
       nothing_posted].
    right. exists (x :: changes). unfold changelog_payload.
    cbv zeta.
    destruct (truthy _); [destruct (rbind _ _)|]; reflexivity.
Qed.

Import KeepAChangelog.





End ChangelogClaims.

(** * Further properties of the two scripts *)

Section Guards.

Lemma outcome_of_commit w debug model commit_msg_filename open_source
      system_prompt user_prompt st :
  let out := PrepareCommitMsg.main w debug model commit_msg_filename
                                   open_source system_prompt user_prompt st in
  fst out = fst (commit_outcome w model open_source) /\
  files (snd out) = files st /\
  visible (trace (snd out))
  = visible (trace st) ++ snd (commit_outcome w model open_source).
Proof.
  exact (commit_main_outcome w debug model commit_msg_filename open_source
                             system_prompt user_prompt st).
Qed.

Lemma outcome_of_changelog w debug model changelog_filename
      system_prompt user_prompt st :
  let out := KeepAChangelog.main w debug model changelog_filename
                                 system_prompt user_prompt st in
  fst out = fst (changelog_outcome w model changelog_filename (files st)) /\
  files (snd out) = files st /\
  visible (trace (snd out))
  = visible (trace st)
      ++ snd (changelog_outcome w model changelog_filename (files st)).
Proof.
  exact (changelog_main_outcome w debug model changelog_filename
                                system_prompt user_prompt st).
Qed.

Lemma posted_of_visible tr tr' es :
  visible tr' = visible tr ++ es -> posted tr' = posted tr ++ posted es.
Proof.
  intros H. rewrite <- (posted_visible tr'), H, posted_app, posted_visible.
  reflexivity.
Qed.

(** X1.  Outside a git repository each tool prints its error and does nothing
    else: no request, no change to a file, and the run ends normally. *)
Theorem outside_repository_only_error
        (w : world) (debug : bool) (model filename : pystr) (open_source : bool)
        (system_prompt user_prompt : option pystr) (st : state) :
  fst (git w git_dir_argv) <> 0%Z ->
  (let out := PrepareCommitMsg.main w debug model filename open_source
                                    system_prompt user_prompt st in
   fst out = Ok tt /\ files (snd out) = files st /\
   visible (trace (snd out))
   = visible (trace st) ++ [Echo true (lit "ERROR: Not in a git repository")]) /\
  (let out := KeepAChangelog.main w debug model filename
                                  system_prompt user_prompt st in
   fst out = Ok tt /\ files (snd out) = files st /\
   visible (trace (snd out))
   = visible (trace st) ++ [Echo true (lit "ERROR: Not in a git repository")]).
Proof.
  intros Hrepo. apply Z.eqb_neq in Hrepo. split.
  - pose proof (outcome_of_commit w debug model filename open_source
                                  system_prompt user_prompt st) as H.
    unfold commit_outcome in H. rewrite Hrepo in H. exact H.
  - pose proof (outcome_of_changelog w debug model filename
                                     system_prompt user_prompt st) as H.
    unfold changelog_outcome in H. rewrite Hrepo in H. exact H.
Qed.

(** X2.  Without an API key, unset or empty, neither tool sends a request or
    changes a file; the commit tool, inside a repository, prints the error
    about the missing key and ends normally. *)
Theorem missing_key_no_request
        (w : world) (debug : bool) (model filename : pystr) (open_source : bool)
        (system_prompt user_prompt : option pystr) (st : state) :
  getenv w (lit "OPENROUTER_API_KEY") = None \/
  getenv w (lit "OPENROUTER_API_KEY") = Some [] ->
  (let out := PrepareCommitMsg.main w debug model filename open_source
                                    system_prompt user_prompt st in
   posted (trace (snd out)) = posted (trace st) /\
   files (snd out) = files st /\
   (fst (git w git_dir_argv) = 0%Z ->
    fst out = Ok tt /\
    visible (trace (snd out)) = visible (trace st) ++ [Echo true no_key_message])) /\
  (let out := KeepAChangelog.main w debug model filename
                                  system_prompt user_prompt st in
   posted (trace (snd out)) = posted (trace st) /\
   files (snd out) = files st).
Proof.
  intros Hkey. split.
  - pose proof (outcome_of_commit w debug model filename open_source
                                  system_prompt user_prompt st) as H.
    cbv zeta in *. destruct H as (Hr & Hf & Hv).
    unfold commit_outcome in *.
    destruct (Z.eqb (fst (git w git_dir_argv)) 0) eqn:Hrepo.
    + assert (E : match getenv w (lit "OPENROUTER_API_KEY") with
                  | Some (c :: key) => False
                  | _ => True
                  end) by (destruct Hkey as [-> | ->]; exact I).
      destruct (getenv w (lit "OPENROUTER_API_KEY")) as [[|c key]|];
        try contradiction;
        (split; [rewrite (@posted_of_visible _ _ _ Hv); apply app_nil_r|]);
        (split; [exact Hf|]); intros _; now split.
    + split; [rewrite (@posted_of_visible _ _ _ Hv); apply app_nil_r|].
      split; [exact Hf|]. intros H0. rewrite H0 in Hrepo. discriminate Hrepo.
  - pose proof (outcome_of_changelog w debug model filename
                                     system_prompt user_prompt st) as H.
    cbv zeta in *. destruct H as (_ & Hf & Hv). split; [|exact Hf].
    rewrite (@posted_of_visible _ _ _ Hv). unfold changelog_outcome.
    destruct (Z.eqb (fst (git w git_dir_argv)) 0); [|apply app_nil_r].
    destruct (bytes_strip _); [|apply app_nil_r].
    destruct (utf8_decode _); [|apply app_nil_r].
    destruct (str_strip _); [apply app_nil_r|].
    destruct Hkey as [-> | ->]; apply app_nil_r.
Qed.

End Guards.

Lemma outside_repository_only_error_witness :
  let w := example_world 128 [] (lit "M a.py") (Some (lit "sk-key")) (HttpFail []) in
  fst (git w git_dir_argv) <> 0%Z /\
  fst (PrepareCommitMsg.main w false (lit "m") (lit "MSG") false None None
                             sample_state) = Ok tt /\
  fst (KeepAChangelog.main w false (lit "m") (lit "CHANGELOG.md") None None
                           sample_state) = Ok tt.
Proof.
  intros w.
  assert (H : fst (git w git_dir_argv) <> 0%Z) by discriminate.
  split; [exact H|]. split.
  - apply (proj1 (@outside_repository_only_error w false (lit "m") (lit "MSG")
                    false None None sample_state H)).
  - apply (proj2 (@outside_repository_only_error w false (lit "m")
                    (lit "CHANGELOG.md") false None None sample_state H)).
Defined.

Lemma missing_key_no_request_witness :
  let w := example_world 0 [] (lit "M a.py") None (HttpFail []) in
  getenv w (lit "OPENROUTER_API_KEY") = None /\
  posted (trace (snd (PrepareCommitMsg.main w true (lit "m") (lit "MSG") false
                                           None None sample_state))) = [] /\
  posted (trace (snd (KeepAChangelog.main w true (lit "m") (lit "CHANGELOG.md")
                                         None None sample_state))) = [].
Proof.
  intros w. split; [reflexivity|]. split.
  - apply (proj1 (@missing_key_no_request w true (lit "m") (lit "MSG") false
                    None None sample_state (or_introl eq_refl))).
  - apply (proj2 (@missing_key_no_request w true (lit "m") (lit "CHANGELOG.md")
                    false None None sample_state (or_introl eq_refl))).
Defined.

Section ChangelogGuards.

Import KeepAChangelog.

(** X3.  When the changelog file itself is staged, the changelog tool says
    that it skips the update and ends normally, with no request and no change
    to a file. *)
Theorem staged_changelog_is_skipped
        (w : world) (debug : bool) (model changelog_filename : pystr)
        (system_prompt user_prompt : option pystr) (st : state) :
  fst (git w git_dir_argv) = 0%Z ->
  bytes_strip (snd (git w (staged_argv changelog_filename))) <> [] ->
  let out := main w debug model changelog_filename system_prompt user_prompt st in
  fst out = Ok tt /\ files (snd out) = files st /\
  visible (trace (snd out))
  = visible (trace st)
      ++ [Echo false (lit "INFO: Skipping " ++ changelog_filename ++ lit " update")].
Proof.
  intros Hrepo Hstaged.
  pose proof (outcome_of_changelog w debug model changelog_filename
                                   system_prompt user_prompt st) as H.
  unfold changelog_outcome in H. rewrite Hrepo in H. cbn [Z.eqb] in H.
  destruct (bytes_strip (snd (git w (staged_argv changelog_filename))));
    [congruence|exact H].
Qed.

Lemma staged_changelog_is_skipped_witness :
  let w := example_world 0 (lit "CHANGELOG.md" ++ [NL]) (lit "M a.py")
                         (Some (lit "sk-key")) (HttpFail []) in
  bytes_strip (snd (git w (staged_argv (lit "CHANGELOG.md")))) <> [] /\
  fst (main w true (lit "m") (lit "CHANGELOG.md") None None sample_state) = Ok tt.
Proof.
  intros w. split; [discriminate|].
  apply (@staged_changelog_is_skipped w true (lit "m") (lit "CHANGELOG.md")
                                      None None sample_state);
    [reflexivity|discriminate].
Defined.

End ChangelogGuards.

Section ChangelogRunsOn.

Import KeepAChangelog.

(** X4.  With nothing staged, the diff empty or white space only, the
    changelog tool prints the note about staging and ends normally, with no
    request and no change to a file. *)
Theorem changelog_nothing_staged
        (w : world) (debug : bool) (model changelog_filename : pystr)
        (system_prompt user_prompt : option pystr) (st : state) (text : pystr) :
  fst (git w git_dir_argv) = 0%Z ->
  bytes_strip (snd (git w (staged_argv changelog_filename))) = [] ->
  utf8_decode (snd (git w changelog_diff_argv)) = Some text ->
  forallb is_space text = true ->
  let out := main w debug model changelog_filename system_prompt user_prompt st in
  fst out = Ok tt /\ files (snd out) = files st /\
  visible (trace (snd out)) = visible (trace st) ++ [Echo false no_staged_message].
Proof.
  intros Hrepo Hstaged Hdec Hsp.
  pose proof (outcome_of_changelog w debug model changelog_filename
                                   system_prompt user_prompt st) as H.
  unfold changelog_outcome in H.
  rewrite Hrepo, Hstaged, Hdec in H. cbn [Z.eqb] in H.
  assert (E : str_strip text = []).
  { unfold str_strip, strip_with. now rewrite (dropwhile_all _ _ Hsp). }
  rewrite E in H. exact H.
Qed.

Lemma changelog_nothing_staged_witness :
  let w := example_world 0 [] (lit " " ++ [NL]) (Some (lit "sk-key"))
                         (HttpJson (well_formed (lit "x"))) in
  forallb is_space (lit " " ++ [NL]) = true /\
  posted (visible (trace (snd (main w false (lit "m") (lit "CHANGELOG.md")
                                    None None sample_state)))) = [].
Proof.
  intros w. split; [reflexivity|].
  destruct (@changelog_nothing_staged w false (lit "m") (lit "CHANGELOG.md")
              None None sample_state (lit " " ++ [NL])
              eq_refl eq_refl eq_refl eq_refl) as (_ & _ & H).
  rewrite H. reflexivity.
Defined.

(** X5.  A diff that is not valid UTF-8 ends the changelog tool in an
    uncaught UnicodeDecodeError, before any request, with nothing printed
    besides debug output and no change to a file. *)
Theorem changelog_undecodable_diff
        (w : world) (debug : bool) (model changelog_filename : pystr)
        (system_prompt user_prompt : option pystr) (st : state) :
  fst (git w git_dir_argv) = 0%Z ->
  bytes_strip (snd (git w (staged_argv changelog_filename))) = [] ->
  utf8_decode (snd (git w changelog_diff_argv)) = None ->
  let out := main w debug model changelog_filename system_prompt user_prompt st in
  fst out = Raise UnicodeDecodeError /\ files (snd out) = files st /\
  visible (trace (snd out)) = visible (trace st).
Proof.
  intros Hrepo Hstaged Hdec.
  pose proof (outcome_of_changelog w debug model changelog_filename
                                   system_prompt user_prompt st) as H.
  unfold changelog_outcome in H.
  rewrite Hrepo, Hstaged, Hdec in H. cbn [Z.eqb fst snd] in H.
  now rewrite app_nil_r in H.
Qed.

Lemma changelog_undecodable_diff_witness :
  let w := example_world 0 [] [43; 233; 10]%N (Some (lit "sk-key"))
                         (HttpJson (well_formed (lit "x"))) in
  utf8_decode (snd (git w changelog_diff_argv)) = None /\
  fst (main w false (lit "m") (lit "CHANGELOG.md") None None sample_state)
  = Raise UnicodeDecodeError.
Proof.
  intros w. split; [reflexivity|].
  apply (@changelog_undecodable_diff w false (lit "m") (lit "CHANGELOG.md")
                                     None None sample_state);
    reflexivity.
Defined.

(** X6.  When the request fails, or the response is a JSON value that counts
    as false (an empty object, an empty list, null, zero), the changelog tool
    has sent exactly one request, reports that it could not generate the
    notes and ends normally without touching a file: no second attempt. *)
Theorem changelog_failed_request
        (w : world) (debug : bool) (model changelog_filename : pystr)
        (system_prompt user_prompt : option pystr) (st : state)
        (text : pystr) (c : char) (changes : pystr) (k : char) (key : pystr) :
  fst (git w git_dir_argv) = 0%Z ->
  bytes_strip (snd (git w (staged_argv changelog_filename))) = [] ->
  utf8_decode (snd (git w changelog_diff_argv)) = Some text ->
  str_strip text = c :: changes ->
  getenv w (lit "OPENROUTER_API_KEY") = Some (k :: key) ->
  truthy (changelog_response w model changelog_filename (files st)
                             (c :: changes) (k :: key)) = false ->
  let out := main w debug model changelog_filename system_prompt user_prompt st in
  fst out = Ok tt /\ files (snd out) = files st /\
  visible (trace (snd out))
  = visible (trace st)
      ++ [Post api_url (request_headers (k :: key))
               (changelog_payload w model changelog_filename (files st)
                                  (c :: changes));
          Echo true (lit "ERROR: Failed to generate release notes.")].
Proof.
  intros Hrepo Hstaged Hdec Hchanges Hkey Hresp.
  pose proof (outcome_of_changelog w debug model changelog_filename
                                   system_prompt user_prompt st) as H.
  unfold changelog_outcome in H.
  rewrite Hrepo, Hstaged, Hdec, Hchanges, Hkey in H. cbn [Z.eqb] in H.
  cbv zeta in H. rewrite Hresp in H. exact H.
Qed.

Lemma changelog_failed_request_witness :
  let w := example_world 0 [] (lit "diff --git a/x b/x") (Some (lit "sk-key"))
                         (HttpFail (lit "503 Server Error")) in
  truthy (changelog_response w (lit "m") (lit "CHANGELOG.md") (files sample_state)
                             (lit "diff --git a/x b/x") (lit "sk-key")) = false /\
  List.length (posted (visible (trace (snd (main w false (lit "m")
                                                 (lit "CHANGELOG.md") None None
                                                 sample_state))))) = 1.
Proof.
  intros w. split; [reflexivity|].
  destruct (@changelog_failed_request w false (lit "m") (lit "CHANGELOG.md")
              None None sample_state (lit "diff --git a/x b/x")
              100%N (lit "iff --git a/x b/x") 115%N (lit "k-key")
              eq_refl eq_refl eq_refl eq_refl eq_refl eq_refl) as (_ & _ & H).
  rewrite H. reflexivity.
Defined.

Lemma extracted_raises response e :
  extracted response = Raise e -> e = TypeError.
Proof.
  assert (Hfb : fallback_content response = Raise e -> e = TypeError).
  { unfold fallback_content.
    destruct response as [| | | |s| |]; try (intros [= <-]; reflexivity).
    destruct (re_search content_pattern s) as [[[j t] g]|];
      [destruct (group 1 g)|]; discriminate. }
  unfold extracted.
  destruct (lookup_content response) as [v|e'] eqn:E; [discriminate|].
  destruct (lookup_content_raises _ E) as [->|[->| ->]]; exact Hfb.
Qed.

Lemma cleaned_extracted_raises response e :
  rbind (extracted response) cleaned = Raise e -> e = TypeError.
Proof.
  destruct (extracted response) as [v|e'] eqn:E; cbn [rbind].
  - destruct v; cbn [cleaned]; intros [= <-]; reflexivity.
  - intros [= <-]. exact (extracted_raises _ E).
Qed.

(** X7.  [extract_generated_changelog] never returns a text: whatever the
    response, it returns [None] or raises TypeError, and on every response
    with a string at the key path it returns [None]. *)
Theorem extract_generated_changelog_returns_none :
  (forall response d st,
      fst (extract_generated_changelog response (debug_log d) st) = Ok VNone \/
      fst (extract_generated_changelog response (debug_log d) st) = Raise TypeError) /\
  (forall response S d st,
      lookup_content response = Ok (VStr S) ->
      fst (extract_generated_changelog response (debug_log d) st) = Ok VNone).
Proof.
  split.
  - intros response d st.
    apply (@runs_extract_generated_changelog response d st
             (fun r _ => r = Ok VNone \/ r = Raise TypeError)).
    intros st' _. destruct (rbind (extracted response) cleaned) as [s|e] eqn:E;
      [now left|right].
    now rewrite (cleaned_extracted_raises _ E).
  - intros response S d st Hl.
    apply (@runs_extract_generated_changelog response d st
             (fun r _ => r = Ok VNone)).
    intros st' _. now rewrite (extracted_well_formed _ Hl).
Qed.

Lemma extract_generated_changelog_returns_none_witness :
  lookup_content (well_formed (lit "## [1.0.0]")) = Ok (VStr (lit "## [1.0.0]")) /\
  fst (extract_generated_changelog (well_formed (lit "## [1.0.0]"))
                                   (debug_log true) sample_state) = Ok VNone.
Proof.
  split; [reflexivity|].
  apply (proj2 extract_generated_changelog_returns_none
               (well_formed (lit "## [1.0.0]")) (lit "## [1.0.0]") true
               sample_state eq_refl).
Defined.

(** X8.  No run of the changelog tool changes a file or adds a write to the
    trace, whatever the world answers; and a run sends at most one request. *)
Theorem changelog_tool_never_writes
        (w : world) (debug : bool) (model changelog_filename : pystr)
        (system_prompt user_prompt : option pystr) (st : state) :
  let out := main w debug model changelog_filename system_prompt user_prompt st in
  files (snd out) = files st /\
  (forall g t, In (Write g t) (trace (snd out)) -> In (Write g t) (trace st)) /\
  List.length (posted (trace (snd out))) <= S (List.length (posted (trace st))).
Proof.
  pose proof (outcome_of_changelog w debug model changelog_filename
                                   system_prompt user_prompt st) as H.
  cbv zeta in *. destruct H as (_ & Hf & Hv).
  split; [exact Hf|].
  assert (Hcases :
            (forall g t, ~ In (Write g t)
                           (snd (changelog_outcome w model changelog_filename
                                                   (files st)))) /\
            List.length (posted (snd (changelog_outcome w model changelog_filename
                                                        (files st)))) <= 1).
  { unfold changelog_outcome.
    destruct (Z.eqb (fst (git w git_dir_argv)) 0).
    2:{ split; [intros g t [E|[]]; discriminate E|simpl; lia]. }
    destruct (bytes_strip _).
    2:{ split; [intros g t [E|[]]; discriminate E|simpl; lia]. }
    destruct (utf8_decode _).
    2:{ split; [intros g t []|simpl; lia]. }
    destruct (str_strip _).
    { split; [intros g t [E|[]]; discriminate E|simpl; lia]. }
    destruct (getenv w (lit "OPENROUTER_API_KEY")) as [[|k key]|].
    1,3: split; [intros g t [E|[]]; discriminate E|simpl; lia].
    cbv zeta. destruct (truthy _); [destruct (rbind _ _)|];
      (split; [intros g t Hin; simpl in Hin;
               repeat (destruct Hin as [Hin|Hin]; [discriminate Hin|]);
               exact Hin
              |simpl; lia]). }
  destruct Hcases as [Hw Hp]. split.
  - intros g t Hin.
    apply (in_visible (Write g t)); [reflexivity|].
    apply (in_visible (Write g t)) in Hin; [|reflexivity].
    rewrite Hv in Hin. apply in_app_or in Hin. destruct Hin as [Hin|Hin];
      [exact Hin|]. now destruct (Hw g t).
  - rewrite (@posted_of_visible _ _ _ Hv), length_app. lia.
Qed.

End ChangelogRunsOn.

Section SanitizeProperties.

(** X10.  The five [re.sub] calls compute what five plain list functions
    compute: line feeds for backslash-n, backslash-r deleted, white space
    dropped at the front, then at the back, then every backslash with the
    letters after it deleted. *)
Theorem sanitize_is_five_list_steps (s : pystr) :
  sanitize s =
  remove_escapes (rstrip (lstrip (drop_returns (unescape_newlines s)))).
Proof. exact (sanitize_steps s). Qed.

Lemma strip_escapes_head : forall s b,
  begins_with_letter (strip_escapes b s) = true ->
  b = false /\ begins_with_letter s = true.
Proof.
  induction s as [|x t IH]; intros b H; [discriminate|].
  cbn [strip_escapes] in H.
  destruct (b && is_alpha x) eqn:E1.
  - now destruct (IH true H).
  - destruct (char_eqb x BSL && _) eqn:E2.
    + now destruct (IH true H).
    + cbn [begins_with_letter] in *. rewrite H in E1.
      rewrite andb_true_r in E1. now split.
Qed.

Lemma strip_escapes_no_escape : forall s b,
  has_escape (strip_escapes b s) = false.
Proof.
  induction s as [|x t IH]; intros b; [reflexivity|].
  cbn [strip_escapes].
  destruct (b && is_alpha x); [apply IH|].
  destruct (char_eqb x BSL && match t with y :: _ => is_alpha y | [] => false end)
    eqn:E2; [apply IH|].
  cbn [has_escape]. rewrite IH, orb_false_r.
  destruct (char_eqb x BSL); [|reflexivity]. cbn [andb] in *.
  fold (begins_with_letter (strip_escapes false t)).
  destruct (begins_with_letter (strip_escapes false t)) eqn:E3; [|reflexivity].
  destruct (strip_escapes_head _ _ E3) as [_ E4].
  unfold begins_with_letter in E4. congruence.
Qed.

(** X11.  Whatever the input, the sanitized text holds no backslash followed
    by a letter: no backslash-n, backslash-r or backslash-t is left, and a
    second pass of the last step would change nothing. *)
Theorem sanitize_leaves_no_escape (s : pystr) :
  has_escape (sanitize s) = false /\
  re_sub alpha_escape [] (sanitize s) = sanitize s.
Proof.
  assert (H : has_escape (sanitize s) = false).
  { rewrite sanitize_steps. apply strip_escapes_no_escape. }
  split; [exact H|].
  rewrite re_sub_alpha_escape. now apply remove_escapes_none.
Qed.

Lemma space_is_no_backslash x : is_space x = true -> char_eqb x BSL = false.
Proof.
  intros H. unfold char_eqb. destruct (N.eqb_spec x BSL) as [->|]; [|reflexivity].
  discriminate H.
Qed.

Lemma has_pair_backslash_free d s :
  backslash_free s = true -> has_pair BSL d s = false.
Proof.
  unfold backslash_free. induction s as [|x t IH]; [reflexivity|].
  cbn [forallb has_pair]. intros H. apply andb_true_iff in H.
  destruct H as [Hx Ht]. apply negb_true_iff in Hx. rewrite Hx. now apply IH.
Qed.

Lemma has_escape_backslash_free s :
  backslash_free s = true -> has_escape s = false.
Proof.
  unfold backslash_free. induction s as [|x t IH]; [reflexivity|].
  cbn [forallb has_escape]. intros H. apply andb_true_iff in H.
  destruct H as [Hx Ht]. apply negb_true_iff in Hx. rewrite Hx. now apply IH.
Qed.

Lemma blank_backslash_free s :
  forallb is_space s = true -> backslash_free s = true.
Proof.
  unfold backslash_free. rewrite !forallb_forall. intros H x Hx.
  now rewrite (space_is_no_backslash x (H x Hx)).
Qed.

(** X12.  Content that is empty or white space only is sanitized to the empty
    text, the one text both [main] functions refuse to write. *)
Theorem sanitize_blank_is_empty (s : pystr) :
  forallb is_space s = true -> sanitize s = [].
Proof.
  intros H. rewrite sanitize_steps.
  pose proof (blank_backslash_free s H) as Hb.
  unfold unescape_newlines, drop_returns.
  rewrite (replace_pair_none _ _ _ _ (has_pair_backslash_free _ _ Hb)).
  rewrite (replace_pair_none _ _ _ _ (has_pair_backslash_free _ _ Hb)).
  unfold lstrip. now rewrite (dropwhile_all _ _ H).
Qed.

Lemma sanitize_blank_is_empty_witness :
  forallb is_space ([32; 9; 10; 160]%N : pystr) = true /\
  sanitize [32; 9; 10; 160]%N = [].
Proof.
  split; [reflexivity|].
  apply (@sanitize_blank_is_empty [32; 9; 10; 160]%N). reflexivity.
Defined.

Lemma dropwhile_clean s : starts_clean s = true -> dropwhile is_space s = s.
Proof.
  destruct s as [|x t]; [reflexivity|]. simpl. intros H.
  apply negb_true_iff in H. now rewrite H.
Qed.

(** X13.  A text without a backslash and without white space at its ends
    passes through the sanitization unchanged. *)
Theorem sanitize_keeps_clean_text (s : pystr) :
  backslash_free s = true ->
  starts_clean s = true ->
  ends_clean s = true ->
  sanitize s = s.
Proof.
  intros Hb Hs He. rewrite sanitize_steps.
  unfold unescape_newlines, drop_returns.
  rewrite (replace_pair_none _ _ _ _ (has_pair_backslash_free _ _ Hb)).
  rewrite (replace_pair_none _ _ _ _ (has_pair_backslash_free _ _ Hb)).
  unfold lstrip, rstrip. rewrite (dropwhile_clean _ Hs).
  unfold ends_clean in He. rewrite (dropwhile_clean _ He), rev_involutive.
  apply remove_escapes_none. now apply has_escape_backslash_free.
Qed.

Lemma sanitize_keeps_clean_text_witness :
  sanitize (lit "feat(cli): add flag" ++ [NL; NL] ++ lit "- one line")
  = lit "feat(cli): add flag" ++ [NL; NL] ++ lit "- one line".
Proof.
  apply (@sanitize_keeps_clean_text
           (lit "feat(cli): add flag" ++ [NL; NL] ++ lit "- one line"));
    reflexivity.
Defined.

Lemma replace_pair_length c d repl (s : pystr) :
  List.length repl <= 2 ->
  List.length (replace_pair c d repl s) <= List.length s.
Proof.
  intros Hr.
  assert (H : forall n s, List.length s <= n ->
                          List.length (replace_pair c d repl s) <= List.length s).
  { induction n as [|n IH]; intros [|x [|y t]] Hn; simpl in *; try lia.
    destruct (char_eqb x c && char_eqb y d).
    - rewrite length_app. specialize (IH t ltac:(lia)). lia.
    - specialize (IH (y :: t) ltac:(simpl; lia)). simpl in *. lia. }
  now apply (H (List.length s)).
Qed.

Lemma strip_escapes_length : forall s b,
  List.length (strip_escapes b s) <= List.length s.
Proof.
  induction s as [|x t IH]; intros b; [simpl; lia|].
  cbn [strip_escapes].
  destruct (b && is_alpha x); [specialize (IH true); simpl; lia|].
  destruct (char_eqb x BSL && _); [specialize (IH true); simpl; lia|].
  specialize (IH false). simpl. lia.
Qed.

(** X14.  Sanitization only deletes or shortens: its result is never longer
    than the text it was given. *)
Theorem sanitize_never_longer (s : pystr) :
  List.length (sanitize s) <= List.length s.
Proof.
  rewrite sanitize_steps. unfold remove_escapes, rstrip, lstrip.
  pose proof (strip_escapes_length
                (rev (dropwhile is_space
                        (rev (dropwhile is_space
                                (drop_returns (unescape_newlines s)))))) false) as H1.
  rewrite length_rev in H1.
  pose proof (dropwhile_length is_space
                (rev (dropwhile is_space (drop_returns (unescape_newlines s))))) as H2.
  rewrite length_rev in H2.
  pose proof (dropwhile_length is_space (drop_returns (unescape_newlines s))) as H3.
  pose proof (@replace_pair_length BSL 114%N [] (unescape_newlines s)
                                   ltac:(simpl; lia)) as H4.
  pose proof (@replace_pair_length BSL 110%N [NL] s ltac:(simpl; lia)) as H5.
  unfold drop_returns, unescape_newlines in *. lia.
Qed.

End SanitizeProperties.

Section ValidationProperties.

Import PrepareCommitMsg.

Lemma greedy_fallback p k : forall s i,
  k i s <> None -> greedy p i s k <> None.
Proof.
  intros [|x s] i H; cbn [greedy]; [exact H|].
  destruct (p x); [|exact H].
  destruct (greedy p (S i) s k); [discriminate|exact H].
Qed.

Lemma greedy_some p k : forall u t i,
  forallb p u = true ->
  k (i + List.length u) t <> None ->
  greedy p i (u ++ t) k <> None.
Proof.
  induction u as [|x u IH]; intros t i Hu Hk.
  - apply greedy_fallback. simpl in Hk. now rewrite Nat.add_0_r in Hk.
  - cbn [app greedy]. simpl in Hu. apply andb_true_iff in Hu.
    destruct Hu as [-> Hu].
    assert (G : greedy p (S i) (u ++ t) k <> None).
    { apply IH; [exact Hu|]. simpl in Hk. now rewrite Nat.add_succ_r in Hk. }
    destruct (greedy p (S i) (u ++ t) k); [discriminate|congruence].
Qed.

Lemma greedy_all p k u i :
  forallb p u = true ->
  k (i + List.length u) [] <> None ->
  greedy p i u k <> None.
Proof.
  intros Hu Hk. rewrite <- (app_nil_r u). now apply greedy_some.
Qed.

Lemma no_newline_cons x d :
  no_newline (x :: d) = true ->
  negb (char_eqb x NL) = true /\ forallb (atom_ok ADot) d = true.
Proof.
  unfold no_newline. cbn [forallb]. intros H.
  apply andb_true_iff in H. exact H.
Qed.

Lemma some_stays X : X <> None ->
  match X with Some m => Some m | None => @None mres end <> None.
Proof. destruct X; [discriminate|congruence]. Qed.

(** After simplification on a concrete type: the description, and before it
    the scope, are runs for the greedy dot. *)
Ltac description_matches Hx Hd :=
  rewrite Hx; apply greedy_all;
  [exact Hd|cbv beta iota; unfold accept; discriminate].

Lemma header_without_scope ty x d :
  In ty conventional_types ->
  negb (char_eqb x NL) = true -> forallb (atom_ok ADot) d = true ->
  exec conventional_pattern 0 (ty ++ lit ": " ++ x :: d) [] accept <> None.
Proof.
  intros Hin Hx Hd. unfold conventional_types in Hin.
  repeat (destruct Hin as [<-|Hin]; [cbn; try apply some_stays;
                                     description_matches Hx Hd|]).
  destruct Hin.
Qed.

Lemma header_with_scope ty y scope x d :
  In ty conventional_types ->
  negb (char_eqb y NL) = true -> forallb (atom_ok ADot) scope = true ->
  negb (char_eqb x NL) = true -> forallb (atom_ok ADot) d = true ->
  exec conventional_pattern 0
       (ty ++ lit "(" ++ (y :: scope) ++ lit "): " ++ x :: d) [] accept <> None.
Proof.
  intros Hin Hy Hs Hx Hd. unfold conventional_types in Hin.
  repeat (destruct Hin as [<-|Hin];
          [cbn; rewrite Hy; cbv iota; repeat apply some_stays;
           apply greedy_some; [exact Hs|];
           cbn; description_matches Hx Hd|]).
  destruct Hin.
Qed.

(** X15.  Every one-line header of the conventional form is accepted: one of
    the eleven types, then a colon, a blank and a non-empty description
    without line feed; and the same with a non-empty scope without line feed
    in parentheses after the type. *)
Theorem validate_accepts_headers (ty scope d : pystr) :
  In ty conventional_types ->
  d <> [] -> no_newline d = true ->
  validate_commit_message (ty ++ lit ": " ++ d) = true /\
  (scope <> [] -> no_newline scope = true ->
   validate_commit_message (ty ++ lit "(" ++ scope ++ lit "): " ++ d) = true).
Proof.
  intros Hin Hne Hd. destruct d as [|x d]; [congruence|].
  destruct (@no_newline_cons _ _ Hd) as [Hx Hd'].
  unfold validate_commit_message, re_match. split.
  - pose proof (@header_without_scope ty x d Hin Hx Hd') as H.
    destruct (exec conventional_pattern 0 _ [] accept); [reflexivity|congruence].
  - intros Hsne Hs. destruct scope as [|y scope]; [congruence|].
    destruct (@no_newline_cons _ _ Hs) as [Hy Hs'].
    pose proof (@header_with_scope ty y scope x d Hin Hy Hs' Hx Hd') as H.
    destruct (exec conventional_pattern 0 _ [] accept); [reflexivity|congruence].
Qed.

Lemma validate_accepts_headers_witness :
  In (lit "refactor") conventional_types /\
  validate_commit_message (lit "refactor" ++ lit ": " ++ lit "split the parser") = true /\
  validate_commit_message
    (lit "refactor" ++ lit "(" ++ lit "re, io" ++ lit "): " ++ lit "split the parser")
  = true.
Proof.
  assert (Hin : In (lit "refactor") conventional_types)
    by (unfold conventional_types; simpl; tauto).
  destruct (@validate_accepts_headers (lit "refactor") (lit "re, io")
              (lit "split the parser") Hin ltac:(discriminate) eq_refl)
    as [H1 H2].
  split; [exact Hin|]. split; [exact H1|].
  apply H2; [discriminate|reflexivity].
Defined.

Lemma exec_lits_prefix : forall l i s g k m,
  exec (lits l) i s g k = Some m -> starts_with l s = true.
Proof.
  induction l as [|c l IH]; intros i s g k m H; [reflexivity|].
  destruct l as [|c' l].
  - cbn [lits chr exec atom_ok] in H. destruct s as [|x s]; [discriminate|].
    cbn [starts_with]. destruct (char_eqb x c); [reflexivity|discriminate].
  - change (lits (c :: c' :: l)) with (chr c >> lits (c' :: l)) in H.
    rewrite exec_chr_seq in H. destruct s as [|x s]; [discriminate|].
    cbn [starts_with]. destruct (char_eqb x c); [|discriminate].
    exact (IH _ _ _ _ _ H).
Qed.

(** X16.  A message is accepted only if it begins with one of the eleven
    types as written, in lower case. *)
Theorem validate_requires_type (m : pystr) :
  validate_commit_message m = true ->
  existsb (fun ty => starts_with ty m) conventional_types = true.
Proof.
  unfold validate_commit_message, re_match, conventional_pattern.
  destruct (exec _ 0 m [] accept) as [x|] eqn:E; [intros _|discriminate].
  cbn [exec Nat.eqb alts] in E.
  unfold conventional_types. cbn [existsb].
  repeat match type of E with
         | match exec (word ?t) ?i ?s ?g ?k with _ => _ end = Some _ =>
             let E' := fresh "E" in
             destruct (exec (word t) i s g k) eqn:E';
             [apply exec_lits_prefix in E'; rewrite E';
              rewrite ?orb_true_r; reflexivity|]
         end.
  apply exec_lits_prefix in E. rewrite E. now rewrite ?orb_true_r.
Qed.

Lemma validate_requires_type_witness :
  validate_commit_message (lit "docs: fix typo") = true /\
  existsb (fun ty => starts_with ty (lit "docs: fix typo")) conventional_types = true.
Proof.
  split; [reflexivity|].
  apply (@validate_requires_type (lit "docs: fix typo")). reflexivity.
Defined.

End ValidationProperties.

Section FallbackProperties.

Import PrepareCommitMsg.

Lemma greedy_split p k m : forall s i,
  greedy p i s k = Some m ->
  exists u t,
    s = u ++ t /\ forallb p u = true /\ k (i + List.length u) t = Some m.
Proof.
  induction s as [|x s IH]; intros i H; cbn [greedy] in H.
  - exists [], []. rewrite Nat.add_0_r. now repeat split.
  - destruct (p x) eqn:Hx.
    + destruct (greedy p (S i) s k) as [m'|] eqn:Hg.
      * injection H as <-. destruct (IH _ Hg) as (u & t & -> & Hu & Hk).
        exists (x :: u), t. repeat split.
        -- simpl. now rewrite Hx.
        -- simpl. now rewrite Nat.add_succ_r.
      * exists [], (x :: s). rewrite Nat.add_0_r. now repeat split.
    + exists [], (x :: s). rewrite Nat.add_0_r. now repeat split.
Qed.

Lemma starts_with_split key : forall s,
  starts_with key s = true -> exists r, s = key ++ r.
Proof.
  induction key as [|c key IH]; intros s H; [now exists s|].
  destruct s as [|x s]; [discriminate|]. cbn [starts_with] in H.
  apply andb_true_iff in H. destruct H as [Hx Hs].
  unfold char_eqb in Hx. apply N.eqb_eq in Hx. subst x.
  destruct (IH _ Hs) as [r ->]. now exists r.
Qed.

Lemma exec_content_pattern_key i r k :
  exec content_pattern i (content_key ++ r) [] k =
  greedy (atom_ok not_quote) (11 + i) r
         (fun j t =>
            match t with
            | x :: t' =>
                if char_eqb x DQ
                then k (S j) t' [(1, firstn (j - (11 + i)) r)]
                else None
            | [] => None
            end).
Proof. reflexivity. Qed.

(** What a match of the fallback pattern is: the key, a text free of double
    quotes, a double quote. *)
Lemma exec_content_pattern_match i s j t g :
  exec content_pattern i s [] accept = Some (j, t, g) ->
  exists v, quote_free v = true /\ g = [(1, v)] /\ s = content_field v ++ t.
Proof.
  intros H.
  destruct (starts_with content_key s) eqn:Hk.
  2:{ now rewrite (exec_content_pattern_none _ _ _ Hk) in H. }
  destruct (starts_with_split _ _ Hk) as [r ->].
  rewrite exec_content_pattern_key in H.
  destruct (greedy_split _ _ _ _ H) as (u & t' & -> & Hu & Hm).
  destruct t' as [|x t']; [discriminate|].
  destruct (char_eqb x DQ) eqn:Hx; [|discriminate].
  unfold char_eqb in Hx. apply N.eqb_eq in Hx. subst x.
  unfold accept in Hm. injection Hm as _ <- <-.
  exists u. split; [|split].
  - unfold quote_free. rewrite forallb_forall in *. intros x Hin.
    rewrite <- atom_ok_not_quote. now apply Hu.
  - now rewrite firstn_exact.
  - unfold content_field. now rewrite <- !app_assoc.
Qed.

Lemma search_found r : forall s i m,
  search_from r i s = Some m ->
  exists p s', s = p ++ s' /\ exec r (i + List.length p) s' [] accept = Some m.
Proof.
  induction s as [|x s IH]; intros i m H; cbn [search_from] in H.
  - exists [], []. rewrite Nat.add_0_r. split; [reflexivity|].
    destruct (exec r i [] [] accept); [exact H|discriminate].
  - destruct (exec r i (x :: s) [] accept) as [m'|] eqn:E.
    + injection H as <-. exists [], (x :: s). rewrite Nat.add_0_r. now split.
    + destruct (IH _ _ H) as (p & s' & -> & Hm).
      exists (x :: p), s'. split; [reflexivity|].
      simpl. now rewrite Nat.add_succ_r.
Qed.

(** X17.  What the fallback returns is really in the response: a text free of
    double quotes that stands there as the value of a content field.  So the
    fallback stops at the first double quote of a value, an escaped one
    included. *)
Theorem fallback_value_is_a_field (s v : pystr) :
  extracted (VStr s) = Ok (VStr v) ->
  quote_free v = true /\ exists p q, s = p ++ content_field v ++ q.
Proof.
  unfold extracted. cbn [lookup_content getitem_str rbind].
  unfold fallback_content, re_search.
  destruct (search_from content_pattern 0 s) as [[[j t] g]|] eqn:E;
    [|discriminate].
  destruct (search_found _ _ _ E) as (p & s' & -> & Hm).
  destruct (exec_content_pattern_match _ _ Hm) as (u & Hu & -> & ->).
  cbn [group Nat.eqb]. intros [= <-].
  split; [exact Hu|]. now exists p, t.
Qed.

Lemma fallback_value_is_a_field_witness :
  quote_free (lit "say \") = true /\
  extracted (VStr (content_field (lit "say \") ++ lit "hi\" ++ [DQ]))
  = Ok (VStr (lit "say \")).
Proof.
  assert (H : extracted (VStr (content_field (lit "say \") ++ lit "hi\" ++ [DQ]))
              = Ok (VStr (lit "say \"))) by reflexivity.
  split; [|exact H].
  apply (@fallback_value_is_a_field _ _ H).
Defined.

Lemma occurs_tail key x s : occurs key (x :: s) = false -> occurs key s = false.
Proof.
  cbn [occurs]. intros H. apply orb_false_iff in H. exact (proj2 H).
Qed.

Lemma occurs_head key s : occurs key s = false -> starts_with key s = false.
Proof.
  destruct s; cbn [occurs]; intros H; apply orb_false_iff in H; exact (proj1 H).
Qed.

Lemma search_without_key : forall s i,
  occurs content_key s = false -> search_from content_pattern i s = None.
Proof.
  induction s as [|x s IH]; intros i H; cbn [search_from];
    rewrite (@exec_content_pattern_none i _ accept (@occurs_head _ _ H));
    [reflexivity|].
  apply IH. exact (@occurs_tail _ _ _ H).
Qed.

(** X18.  On a string in which the key with its colon and opening double
    quote does not occur, the fallback finds nothing: the extracted value is
    [None], and both extraction functions then raise TypeError in their
    first [re.sub]. *)
Theorem fallback_without_key (s : pystr) (d : bool) (st : state) :
  occurs content_key s = false ->
  extracted (VStr s) = Ok VNone /\
  fst (extract_commit_message (VStr s) (debug_log d) st) = Raise TypeError /\
  fst (KeepAChangelog.extract_generated_changelog (VStr s) (debug_log d) st)
  = Raise TypeError.
Proof.
  intros H.
  assert (E : extracted (VStr s) = Ok VNone).
  { unfold extracted. cbn [lookup_content getitem_str rbind].
    unfold fallback_content, re_search. now rewrite search_without_key. }
  split; [exact E|]. split.
  - apply (@runs_extract_commit_message (VStr s) d st
             (fun r _ => r = Raise TypeError)).
    intros st' _. now rewrite E.
  - apply (@runs_extract_generated_changelog (VStr s) d st
             (fun r _ => r = Raise TypeError)).
    intros st' _. now rewrite E.
Qed.

Lemma fallback_without_key_witness :
  occurs content_key (lit "<html>502 Bad Gateway</html>") = false /\
  extracted (VStr (lit "<html>502 Bad Gateway</html>")) = Ok VNone.
Proof.
  split; [reflexivity|].
  apply (@fallback_without_key (lit "<html>502 Bad Gateway</html>") false
                               sample_state).
  reflexivity.
Defined.

(** X19.  A response with the key path but with something other than a
    string at its end, [null] for one, makes both extraction functions raise
    TypeError: the fallback is not tried and no text is returned. *)
Theorem non_string_content_raises (response v : value) (d : bool) (st : state) :
  lookup_content response = Ok v ->
  (forall s, v <> VStr s) ->
  extract_commit_message response (debug_log d) st = (Raise TypeError, st) /\
  KeepAChangelog.extract_generated_changelog response (debug_log d) st
  = (Raise TypeError, st).
Proof.
  intros Hl Hv.
  unfold extract_commit_message, KeepAChangelog.extract_generated_changelog,
    bind, lift.
  rewrite (extracted_well_formed _ Hl).
  destruct v; try (now split). now destruct (Hv s).
Qed.

Lemma non_string_content_raises_witness :
  let response :=
    VDict [(lit "choices",
            VList [VDict [(lit "message", VDict [(lit "content", VNone)])]])] in
  lookup_content response = Ok VNone /\
  extract_commit_message response (debug_log true) sample_state
  = (Raise TypeError, sample_state).
Proof.
  intros response. split; [reflexivity|].
  apply (@non_string_content_raises response VNone true sample_state eq_refl).
  intros s. discriminate.
Defined.

End FallbackProperties.

Section FilesAndRequests.

Lemma str_eqb_eq a : forall b, str_eqb a b = true <-> a = b.
Proof.
  induction a as [|x a IH]; intros [|y b]; simpl; try (split; congruence).
  rewrite andb_true_iff, IH. unfold char_eqb. rewrite N.eqb_eq.
  split; [intros [-> ->]; reflexivity|intros [= -> ->]; now split].
Qed.

Lemma assoc_remove_other (g f : pystr) (fs : fsys) :
  g <> f -> assoc g (remove_file f fs) = assoc g fs.
Proof.
  intros Hgf. induction fs as [|[k v] fs IH]; [reflexivity|].
  cbn [remove_file assoc].
  destruct (str_eqb k f) eqn:Ekf.
  - apply str_eqb_eq in Ekf. subst k.
    destruct (str_eqb f g) eqn:Efg; [|exact IH].
    apply str_eqb_eq in Efg. congruence.
  - cbn [assoc]. destruct (str_eqb k g); [reflexivity|exact IH].
Qed.

Lemma universal_newlines_plain s :
  existsb (fun x => char_eqb x 13%N) s = false -> universal_newlines s = s.
Proof.
  induction s as [|x t IH]; [reflexivity|].
  cbn [existsb universal_newlines]. intros H.
  apply orb_false_iff in H. destruct H as [-> Ht]. now rewrite IH.
Qed.

(** X20.  What [write_file] wrote is what [read_file] reads, up to the line
    ends.  After a write that could open the file, the file exists and no
    other file has changed.  If the text could be encoded, the write answers
    [True] and reading gives the text back with every carriage return, alone
    or before a line feed, read as one line feed, so exactly the text when it
    holds no carriage return.  If it could not be encoded, the write answers
    [False] and has left the file empty. *)
Theorem written_file_reads_back
        (w : world) (filename text : pystr) (st : state) :
  open_w_fails w filename = false ->
  let st' := snd (write_file w filename (VStr text) st) in
  fst (KeepAChangelog.isfile filename st') = Ok true /\
  (forall other, other <> filename ->
                 assoc other (files st') = assoc other (files st)) /\
  (file_encodable w text = true ->
   fst (write_file w filename (VStr text) st) = Ok true /\
   (read_fails w filename = false ->
    fst (KeepAChangelog.read_file w filename st') = Ok (universal_newlines text)) /\
   (read_fails w filename = false ->
    existsb (fun x => char_eqb x 13%N) text = false ->
    fst (KeepAChangelog.read_file w filename st') = Ok text)) /\
  (file_encodable w text = false ->
   fst (write_file w filename (VStr text) st) = Ok false /\
   assoc filename (files st') = Some []).
Proof.
  intros Hopen. unfold write_file. rewrite Hopen.
  assert (Hother : forall fs' other,
             other <> filename ->
             assoc other ((filename, fs') :: remove_file filename (files st))
             = assoc other (files st)).
  { intros fs' other Hne. cbn [assoc].
    destruct (str_eqb filename other) eqn:E.
    - apply str_eqb_eq in E. congruence.
    - now apply assoc_remove_other. }
  destruct (file_encodable w text);
    unfold bind, store, ret, KeepAChangelog.isfile, KeepAChangelog.read_file;
    cbn [fst snd files assoc]; rewrite str_eqb_refl.
  - split; [reflexivity|]. split; [apply Hother|].
    split; [|discriminate]. intros _. split; [reflexivity|]. split.
    + intros ->. reflexivity.
    + intros -> Hcr. now rewrite universal_newlines_plain.
  - split; [reflexivity|]. split; [apply Hother|].
    split; [discriminate|]. intros _. now split.
Qed.

Lemma written_file_reads_back_witness :
  let w := example_world 0 [] [] None (HttpFail []) in
  file_encodable w (lit "# new" ++ [13; 10]%N) = true /\
  fst (KeepAChangelog.read_file w (lit "CHANGELOG.md")
         (snd (write_file w (lit "CHANGELOG.md")
                          (VStr (lit "# new" ++ [13; 10]%N)) sample_state)))
  = Ok (lit "# new" ++ [NL]) /\
  file_encodable w [55357%N] = false /\
  assoc (lit "CHANGELOG.md")
        (files (snd (write_file w (lit "CHANGELOG.md") (VStr [55357%N])
                                sample_state)))
  = Some [].
Proof.
  intros w. split; [reflexivity|].
  destruct (@written_file_reads_back w (lit "CHANGELOG.md")
              (lit "# new" ++ [13; 10]%N) sample_state eq_refl)
    as (_ & _ & H1 & _).
  destruct (H1 eq_refl) as (_ & H2 & _).
  split; [exact (H2 eq_refl)|]. split; [reflexivity|].
  destruct (@written_file_reads_back w (lit "CHANGELOG.md") [55357%N]
              sample_state eq_refl) as (_ & _ & _ & H3).
  exact (proj2 (H3 eq_refl)).
Defined.

End FilesAndRequests.
